(** * patrol_bot: the edit reconciliation engine of [main.py]

    A shallow embedding of the decision functions [should_patrol_*], of
    [tidy_description] and of [scrape_aliases_from_diff], together with the
    properties of the specification that concern them, and of the summary
    patterns, [get_revision_diff] and the loop of [process_revision_subset]
    with properties read off the code.

    Python values are modelled as the code uses them: [str] as [string],
    a [dict] as a [gmap] with string keys, a [list] as a [list], [None] by
    [option], and a call that may raise by the [result] type below.  The
    pywikibot and lxml objects the code reads ([ItemPage], [Page], the parsed
    element tree) are plain records handed to the functions in a [World]. *)

From Stdlib Require Import String Ascii List Bool Arith Lia.
From stdpp Require Import gmap strings list fin_maps.
Import ListNotations.

Local Open Scope string_scope.
Local Open Scope list_scope.

(** ** Exceptions and results *)

(** The exception classes that [main.py] names, and the ones its own
    expressions can raise.  [NoUsername], which [should_patrol_sitelink_removal]
    names, is pywikibot's older name of [NoUsernameError]. *)
Inductive exn : Type :=
| ValueError
| TypeError
| AttributeError
| RuntimeError
| NoUsernameError
| InvalidTitleError
| UnsupportedPageError
| NoPageError
| OtherError (name : string).

(** The outcome of a call: it returns a value or raises. *)
Inductive result (A : Type) : Type :=
| Return (a : A)
| Raise (e : exn).

Arguments Return {A} a.
Arguments Raise {A} e.

Definition bind {A B : Type} (c : result A) (k : A -> result B) : result B :=
  match c with
  | Return a => k a
  | Raise e => Raise e
  end.

Notation "'let*' x ':=' c 'in' k" := (bind c (fun x => k))
  (at level 10, x name, c at level 100, k at level 200).

(** [try: c  except E: handler  else: els]: an exception of [c] that the
    clause names runs the handler, any other one propagates. *)
Definition try_except {A B : Type} (c : result A) (caught : exn -> bool)
    (handler : result B) (els : A -> result B) : result B :=
  match c with
  | Return a => els a
  | Raise e => if caught e then handler else Raise e
  end.

Definition is_ValueError (e : exn) : bool :=
  match e with ValueError => true | _ => false end.
Definition is_NoUsernameError (e : exn) : bool :=
  match e with NoUsernameError => true | _ => false end.
Definition is_InvalidTitleError (e : exn) : bool :=
  match e with InvalidTitleError => true | _ => false end.
Definition is_UnsupportedPageError (e : exn) : bool :=
  match e with UnsupportedPageError => true | _ => false end.
Definition is_NoPageError (e : exn) : bool :=
  match e with NoPageError => true | _ => false end.

(** ** Python strings *)

Module PyStr.

(** [sub in s] *)
Fixpoint contains (sub s : string) : bool :=
  String.prefix sub s ||
  match s with
  | EmptyString => false
  | String _ s' => contains sub s'
  end.

(** [s.startswith(p)] *)
Definition startswith (p s : string) : bool := String.prefix p s.

(** Put a character in front of the first piece of a split. *)
Definition cons_head (c : ascii) (parts : list string) : list string :=
  match parts with
  | [] => [String c EmptyString]
  | h :: t => String c h :: t
  end.

(** [s.split(sep)] for a separator of one character. *)
Fixpoint split1 (sep : ascii) (s : string) : list string :=
  match s with
  | EmptyString => [EmptyString]
  | String c s' =>
      if Ascii.eqb c sep then EmptyString :: split1 sep s'
      else cons_head c (split1 sep s')
  end.

(** [s.split(sep)] for a separator of two characters [a b]: the scan goes
    left to right and resumes after each separator it finds. *)
Fixpoint split2 (a b : ascii) (s : string) : list string :=
  match s with
  | EmptyString => [EmptyString]
  | String c s' =>
      match s' with
      | EmptyString => [String c EmptyString]
      | String c' s'' =>
          if Ascii.eqb c a && Ascii.eqb c' b
          then EmptyString :: split2 a b s''
          else cons_head c (split2 a b s')
      end
  end.

(** [sep.join(parts)] *)
Definition join (sep : string) (parts : list string) : string :=
  String.concat sep parts.

(** [s[2:-2]] *)
Definition slice_2_m2 (s : string) : string :=
  String.substring 2 (String.length s - 4) s.

(** [str(x)] for [x] a string or [None]. *)
Definition str_of_text (t : option string) : string :=
  match t with
  | Some s => s
  | None => "None"
  end.

End PyStr.

(** ** Python dicts *)

Module PyDict.

(** The truth value of a dict: it is false exactly when the dict is empty. *)
Definition truthy {V : Type} (d : gmap string V) : bool :=
  negb (Nat.eqb (size d) 0).

(** [key in d] *)
Definition contains {V : Type} (key : string) (d : gmap string V) : bool :=
  match d !! key with
  | Some _ => true
  | None => false
  end.

End PyDict.

(** [x in l] for a list of strings and [x] a string or [None]. *)
Definition text_in (x : option string) (l : list string) : bool :=
  match x with
  | Some s => existsb (String.eqb s) l
  | None => false
  end.

(** ** The live state the decision functions read *)

(** [str(connected_sitelink)]: the rendering of a [SiteLink] may itself raise
    (the site of the link has to be resolved). *)
Definition SiteLink : Type := result string.

(** What [pwb.ItemPage(REPO, qid)] shows once it is loaded.  [exists_] is the
    call [item_page.exists()], which fetches the entity and may raise;
    [isRedirectPage] and the four collections are read from the fetched
    content.  An entry of [sitelinks] raises when [sitelinks.get] cannot
    build the link. *)
Record ItemPage : Type := {
  exists_ : result bool;
  isRedirectPage : bool;
  sitelinks : gmap string (result SiteLink);
  labels : gmap string string;
  descriptions : gmap string string;
  aliases : gmap string (list string);
}.

(** A page of a client project, [pwb.Page(pwb.Site(code, fam), title)]:
    [page_exists] is [project_page.exists()], [fromPage] the title of the item
    that [pwb.ItemPage.fromPage(project_page)] finds. *)
Record Page : Type := {
  page_exists : result bool;
  fromPage : result string;
}.

(** The remote wiki as the functions reach it. *)
Record World : Type := {
  pwb_ItemPage : string -> ItemPage;
  (** [str(pwb.site.APISite.fromDBName(key))] *)
  fromDBName : string -> result string;
  (** [pwb.Page(pwb.Site(code=lang, fam=family), value)] *)
  pwb_Page : string -> string -> string -> result Page;
}.

(** The value of an alias edit, as [scrape_aliases_from_diff] builds it: the
    dict [{'add': [...], 'remove': [...]}].  An entry is the [.text] of an
    element, a string or [None]. *)
Record AliasDiff : Type := {
  add : list (option string);
  remove : list (option string);
}.

(** [sitelinks.get(key)] *)
Definition sitelinks_get (item_page : ItemPage) (key : string)
    : result (option SiteLink) :=
  match sitelinks item_page !! key with
  | None => Return None
  | Some (Return link) => Return (Some link)
  | Some (Raise e) => Raise e
  end.

(** [family, lang = s.split(':')]: unpacking needs exactly two pieces. *)
Definition unpack2 (parts : list string) : result (string * string) :=
  match parts with
  | [x; y] => Return (x, y)
  | _ => Raise ValueError
  end.

(** [connected_sitelink is not None and str(connected_sitelink)[2:-2] == value] *)
Definition sitelink_is (connected_sitelink : option SiteLink) (value : string)
    : result bool :=
  match connected_sitelink with
  | None => Return false
  | Some link => let* s := link in Return (String.eqb (PyStr.slice_2_m2 s) value)
  end.

(** [connected_sitelink is not None and str(connected_sitelink)[2:-2] != value] *)
Definition sitelink_is_not (connected_sitelink : option SiteLink) (value : string)
    : result bool :=
  match connected_sitelink with
  | None => Return false
  | Some link => let* s := link in Return (negb (String.eqb (PyStr.slice_2_m2 s) value))
  end.

(** ** Internal decision functions *)

Definition should_patrol_sitelink_removal (w : World) (qid key value : string)
    : result bool :=
  let item_page := pwb_ItemPage w qid in
  let* ex := exists_ item_page in
  if negb ex then Return false else
  if isRedirectPage item_page then Return false else
  if negb (PyDict.truthy (sitelinks item_page)) then Return false else
  try_except (sitelinks_get item_page key) is_NoUsernameError (Return false)
    (fun connected_sitelink =>
  let* present := sitelink_is connected_sitelink value in
  if present then Return true else
  let* site := fromDBName w key in
  let* pair := unpack2 (PyStr.split1 ":" site) in
  let family := fst pair in
  let lang := snd pair in
  let* project_page := pwb_Page w lang family value in
  try_except (page_exists project_page) is_InvalidTitleError (Return false)
    (fun page_ex =>
  if negb page_ex then Return true else
  try_except (fromPage project_page) is_NoPageError (Return false)
    (fun connected_item =>
  if negb (String.eqb qid connected_item) then Return true else
  Return false))).

Definition should_patrol_sitelink_addition (w : World) (qid key value : string)
    : result bool :=
  let item_page := pwb_ItemPage w qid in
  let* ex := exists_ item_page in
  if negb ex then Return false else
  if isRedirectPage item_page then Return true else
  if negb (PyDict.truthy (sitelinks item_page)) then Return true else
  if negb (PyDict.contains key (sitelinks item_page)) then Return true else
  try_except (sitelinks_get item_page key) is_NoUsernameError (Return false)
    (fun connected_sitelink =>
  try_except (sitelink_is_not connected_sitelink value) is_NoUsernameError
    (Return false)
    (fun different =>
  if different then Return true else
  let* site := fromDBName w key in
  let* pair := unpack2 (PyStr.split1 ":" site) in
  let family := fst pair in
  let lang := snd pair in
  let* project_page := pwb_Page w lang family value in
  try_except (page_exists project_page)
    (fun e => is_InvalidTitleError e || is_UnsupportedPageError e) (Return false)
    (fun page_ex =>
  if negb page_ex then Return true else
  try_except (fromPage project_page) is_NoPageError (Return false)
    (fun connected_item =>
  if negb (String.eqb qid connected_item) then Return true else
  Return false)))).

(** [d.get(key) == value] *)
Definition equals (d : gmap string string) (key value : string) : bool :=
  match d !! key with
  | Some current => String.eqb current value
  | None => false
  end.

Definition should_patrol_label_removal (w : World) (qid key value : string)
    : result bool :=
  let item_page := pwb_ItemPage w qid in
  try_except (exists_ item_page) is_ValueError (Return false)
    (fun ex =>
  if negb ex then Return false else
  if isRedirectPage item_page then Return true else
  if negb (PyDict.truthy (labels item_page)) then Return false else
  if negb (PyDict.contains key (labels item_page)) then Return false else
  if equals (labels item_page) key value then Return true else
  Return false).

(** [d.get(key) is not None and d.get(key) != value] *)
Definition differs (d : gmap string string) (key value : string) : bool :=
  match d !! key with
  | Some current => negb (String.eqb current value)
  | None => false
  end.

Definition should_patrol_label_modification (w : World) (qid key value : string)
    : result bool :=
  let item_page := pwb_ItemPage w qid in
  let* ex := exists_ item_page in
  if negb ex then Return false else
  if isRedirectPage item_page then Return true else
  if negb (PyDict.truthy (labels item_page)) then Return true else
  if negb (PyDict.contains key (labels item_page)) then Return true else
  if differs (labels item_page) key value then Return true else
  Return false.

Definition should_patrol_description_removal (w : World) (qid key value : string)
    : result bool :=
  let item_page := pwb_ItemPage w qid in
  let* ex := exists_ item_page in
  if negb ex then Return false else
  if isRedirectPage item_page then Return true else
  if negb (PyDict.truthy (descriptions item_page)) then Return false else
  if negb (PyDict.contains key (descriptions item_page)) then Return false else
  if equals (descriptions item_page) key value then Return true else
  Return false.

(** The suffixes that the suggested-edit tools append to a description. *)
Definition appendices : list string :=
  [ "#suggestededit-add 1.0";
    "#suggestededit-translate 1.0";
    "([[w:en:Wikipedia:Shortdesc helper|Shortdesc helper]])" ].

(** [x in appendices] *)
Definition in_appendices (x : string) : bool :=
  existsb (String.eqb x) appendices.

Definition tidy_description (description : string) : string :=
  if negb (PyStr.contains "," description) then description else
  let parts := PyStr.split2 "," " " description in
  if negb (in_appendices (List.last parts EmptyString)) then description else
  let tidied_description := PyStr.join ", " (List.removelast parts) in
  tidied_description.

Definition should_patrol_description_modification (w : World)
    (qid key value : string) : result bool :=
  let value := tidy_description value in
  let item_page := pwb_ItemPage w qid in
  let* ex := exists_ item_page in
  if negb ex then Return false else
  if isRedirectPage item_page then Return true else
  if negb (PyDict.truthy (descriptions item_page)) then Return true else
  if negb (PyDict.contains key (descriptions item_page)) then Return true else
  if differs (descriptions item_page) key value then Return true else
  Return false.

(** [[alias for alias in candidates if alias in d.get(key)]] when [keep_present]
    and [[alias for alias in candidates if alias not in d.get(key)]] otherwise.
    The condition is evaluated once per candidate; when [d.get(key)] is [None]
    its first evaluation raises [TypeError]. *)
Definition select_aliases (keep_present : bool) (candidates : list (option string))
    (d : gmap string (list string)) (key : string) : result (list (option string)) :=
  match candidates with
  | [] => Return []
  | _ :: _ =>
      match d !! key with
      | None => Raise TypeError
      | Some present =>
          Return (List.filter
                    (fun alias => if keep_present then text_in alias present
                                  else negb (text_in alias present))
                    candidates)
      end
  end.

Definition should_patrol_alias_additions (w : World) (qid key : string)
    (value : option AliasDiff) : result bool :=
  match value with
  | None => Return false
  | Some value =>
  if Nat.ltb 0 (List.length (remove value)) then Return false else
  let item_page := pwb_ItemPage w qid in
  let* ex := exists_ item_page in
  if negb ex then Return false else
  if isRedirectPage item_page then Return true else
  if negb (PyDict.truthy (aliases item_page)) then Return true else
  if negb (PyDict.contains key (aliases item_page)) then Return true else
  let* aliases_still_existing :=
    select_aliases true (add value) (aliases item_page) key in
  if Nat.eqb (List.length aliases_still_existing) 0 then Return true else
  Return false
  end.

Definition should_patrol_alias_removals (w : World) (qid key : string)
    (value : option AliasDiff) : result bool :=
  match value with
  | None => Return false
  | Some value =>
  if Nat.ltb 0 (List.length (add value)) then Return false else
  let item_page := pwb_ItemPage w qid in
  let* ex := exists_ item_page in
  if negb ex then Return false else
  if isRedirectPage item_page then Return true else
  if negb (PyDict.truthy (aliases item_page)) then Return false else
  if negb (PyDict.contains key (aliases item_page)) then Return false else
  let* aliases_still_missing :=
    select_aliases false (remove value) (aliases item_page) key in
  if Nat.eqb (List.length aliases_still_missing) 0 then Return true else
  Return false
  end.

Definition should_patrol_alias_modifications (w : World) (qid key : string)
    (value : option AliasDiff) : result bool :=
  match value with
  | None => Return false
  | Some value =>
  let item_page := pwb_ItemPage w qid in
  let* ex := exists_ item_page in
  if negb ex then Return false else
  if isRedirectPage item_page then Return true else
  if (Nat.ltb 0 (List.length (remove value))) && negb (PyDict.truthy (aliases item_page))
  then Return false else
  if (Nat.ltb 0 (List.length (remove value))) && negb (PyDict.contains key (aliases item_page))
  then Return false else
  let* aliases_still_missing :=
    select_aliases false (remove value) (aliases item_page) key in
  let* aliases_still_existing :=
    if negb (PyDict.truthy (aliases item_page))
       || negb (PyDict.contains key (aliases item_page))
    then Return []
    else select_aliases true (add value) (aliases item_page) key in
  if (Nat.eqb (List.length aliases_still_missing) 0) && (Nat.eqb (List.length aliases_still_existing) 0)
  then Return true else
  Return false
  end.

(** The value of a [clientsitelink-remove] intent is never looked at, so its
    type is left open. *)
Definition should_patrol_sitelink_deletion {V : Type} (qid key : string)
    (value : V) : bool :=
  true.

(** ** The jobs *)

(** The actions of the caller functions [patrol_*], named by the prefix of
    the edit summaries they select. *)
Inductive action : Type :=
| wbsetsitelink_remove
| wbsetsitelink_add
| wbsetlabel_add
| wbsetlabel_set
| wbsetlabel_remove
| wbsetdescription_add
| wbsetdescription_set
| wbsetdescription_remove
| wbsetaliases_add
| wbsetaliases_remove
| wbsetaliases_set
| wbsetaliases_update
| clientsitelink_remove.

Definition action_name (a : action) : string :=
  match a with
  | wbsetsitelink_remove => "wbsetsitelink-remove"
  | wbsetsitelink_add => "wbsetsitelink-add"
  | wbsetlabel_add => "wbsetlabel-add"
  | wbsetlabel_set => "wbsetlabel-set"
  | wbsetlabel_remove => "wbsetlabel-remove"
  | wbsetdescription_add => "wbsetdescription-add"
  | wbsetdescription_set => "wbsetdescription-set"
  | wbsetdescription_remove => "wbsetdescription-remove"
  | wbsetaliases_add => "wbsetaliases-add"
  | wbsetaliases_remove => "wbsetaliases-remove"
  | wbsetaliases_set => "wbsetaliases-set"
  | wbsetaliases_update => "wbsetaliases-update"
  | clientsitelink_remove => "clientsitelink-remove"
  end.

(** [action.startswith('wbsetaliases-')] *)
Definition is_alias_action (a : action) : bool :=
  PyStr.startswith "wbsetaliases-" (action_name a).

(** The value that [process_revision_subset] hands to the check function:
    the text captured from the summary, or for an alias action the scraped
    diff, [None] when the diff could not be fetched. *)
Definition intent_value (a : action) : Type :=
  if is_alias_action a then option AliasDiff else string.

(** The [check_function] that each caller function passes on. *)
Definition check_function (a : action) (w : World) (qid key : string)
    : intent_value a -> result bool :=
  match a with
  | wbsetsitelink_remove => should_patrol_sitelink_removal w qid key
  | wbsetsitelink_add => should_patrol_sitelink_addition w qid key
  | wbsetlabel_add => should_patrol_label_modification w qid key
  | wbsetlabel_set => should_patrol_label_modification w qid key
  | wbsetlabel_remove => should_patrol_label_removal w qid key
  | wbsetdescription_add => should_patrol_description_modification w qid key
  | wbsetdescription_set => should_patrol_description_modification w qid key
  | wbsetdescription_remove => should_patrol_description_removal w qid key
  | wbsetaliases_add => should_patrol_alias_additions w qid key
  | wbsetaliases_remove => should_patrol_alias_removals w qid key
  | wbsetaliases_set => should_patrol_alias_modifications w qid key
  | wbsetaliases_update => should_patrol_alias_modifications w qid key
  | clientsitelink_remove =>
      fun value => Return (should_patrol_sitelink_deletion qid key value)
  end.

(** ** Scraping the aliases out of a rendered diff *)

(** An element of the tree that lxml's HTML parser builds. *)
#[local] Set Warnings "-register-all".
Inductive Element : Type :=
| Elem (tag : string) (attrib : gmap string string) (text : option string)
       (children : list Element).

Definition tag (e : Element) : string :=
  match e with Elem t _ _ _ => t end.
Definition attrib (e : Element) : gmap string string :=
  match e with Elem _ a _ _ => a end.
Definition text (e : Element) : option string :=
  match e with Elem _ _ t _ => t end.
Definition children (e : Element) : list Element :=
  match e with Elem _ _ _ c => c end.

(** The element and its descendants in document order. *)
Fixpoint iter (e : Element) : list Element :=
  match e with
  | Elem _ _ _ c => e :: List.flat_map iter c
  end.

(** [tree.xpath('//tr')] *)
Definition xpath_tr (tree : Element) : list Element :=
  List.filter (fun e => String.eqb (tag e) "tr") (iter tree).

(** [e.findall(name)]: the children of [e] with that tag. *)
Definition findall (name : string) (e : Element) : list Element :=
  List.filter (fun c => String.eqb (tag c) name) (children e).

(** [e.find(name)]: the first child of [e] with that tag, or [None]. *)
Definition find (name : string) (e : Element) : option Element :=
  List.find (fun c => String.eqb (tag c) name) (children e).

(** [td_tag.find('div').find(name).text]: an attribute of [None] is an
    [AttributeError]. *)
Definition inner_text (name : string) (td_tag : Element) : result (option string) :=
  match find "div" td_tag with
  | None => Raise AttributeError
  | Some div =>
      match find name div with
      | None => Raise AttributeError
      | Some el => Return (text el)
      end
  end.

(** [td_cls == name], for [td_cls] a string or [None]. *)
Definition cls_is (td_cls : option string) (name : string) : bool :=
  match td_cls with
  | Some c => String.eqb c name
  | None => false
  end.

(** The variables that the two loops of [scrape_aliases_from_diff] update. *)
Record ScrapeState : Type := {
  process_table_cells : bool;
  scraped : AliasDiff;
}.

Definition append_remove (st : ScrapeState) (x : option string) : ScrapeState :=
  {| process_table_cells := process_table_cells st;
     scraped := {| add := add (scraped st);
                   remove := remove (scraped st) ++ [x] |} |}.

Definition append_add (st : ScrapeState) (x : option string) : ScrapeState :=
  {| process_table_cells := process_table_cells st;
     scraped := {| add := add (scraped st) ++ [x];
                   remove := remove (scraped st) |} |}.

Definition set_process (st : ScrapeState) (b : bool) : ScrapeState :=
  {| process_table_cells := b; scraped := scraped st |}.

(** The body of the inner loop, for the cell [td_tag] of row number [i]. *)
Definition scrape_cell (i : nat) (st : ScrapeState) (td_tag : Element)
    : result ScrapeState :=
  let td_cls := attrib td_tag !! "class" in
  let td_txt := PyStr.str_of_text (text td_tag) in
  if Nat.eqb (i mod 2) 1 then
    if negb (cls_is td_cls "diff-lineno") then Return (set_process st false)
    else Return (set_process st (PyStr.startswith "aliases / " td_txt))
  else
    if negb (process_table_cells st) then Return st else
    let* st1 :=
      if cls_is td_cls "diff-deletedline"
      then let* t := inner_text "del" td_tag in Return (append_remove st t)
      else Return st in
    if cls_is td_cls "diff-addedline"
    then let* t := inner_text "ins" td_tag in Return (append_add st1 t)
    else Return st1.

(** [for td_tag in td_tags: ...] *)
Fixpoint scrape_cells (i : nat) (st : ScrapeState) (td_tags : list Element)
    : result ScrapeState :=
  match td_tags with
  | [] => Return st
  | td_tag :: rest =>
      let* st' := scrape_cell i st td_tag in scrape_cells i st' rest
  end.

(** [for i, tr_tag in enumerate(tr_tags, start=i): ...] *)
Fixpoint scrape_rows (i : nat) (st : ScrapeState) (tr_tags : list Element)
    : result ScrapeState :=
  match tr_tags with
  | [] => Return st
  | tr_tag :: rest =>
      let* st' := scrape_cells i st (findall "td" tr_tag) in
      scrape_rows (S i) st' rest
  end.

(** The state at the start of every call. *)
Definition scrape_init : ScrapeState :=
  {| process_table_cells := false; scraped := {| add := []; remove := [] |} |}.

Section Scrape.

(** [etree.fromstring(diff, etree.HTMLParser())]: lxml's parser, which
    returns the root element or [None], or raises. *)
Variable fromstring : string -> result (option Element).

Definition scrape_aliases_from_diff (diff : string) : result AliasDiff :=
  if Nat.eqb (String.length diff) 0 then Raise RuntimeError else
  let* tree := fromstring diff in
  match tree with
  | None => Raise RuntimeError
  | Some tree =>
      let tr_tags := xpath_tr tree in
      let* st := scrape_rows 1 scrape_init tr_tags in
      Return (scraped st)
  end.

End Scrape.

(** *** Runs of the scraper

    The same function as a relation between a start state and an outcome, one
    rule per way through a loop.  The loop variables live in the state that is
    threaded through; a run of the whole function starts from [scrape_init]
    and from the tree that the parser returns for the string. *)

Inductive cells_run (i : nat)
    : ScrapeState -> list Element -> result ScrapeState -> Prop :=
| cells_done (st : ScrapeState) :
    cells_run i st [] (Return st)
| cells_next (st st' : ScrapeState) (td_tag : Element) (rest : list Element)
    (r : result ScrapeState) :
    scrape_cell i st td_tag = Return st' ->
    cells_run i st' rest r ->
    cells_run i st (td_tag :: rest) r
| cells_raise (st : ScrapeState) (td_tag : Element) (rest : list Element)
    (e : exn) :
    scrape_cell i st td_tag = Raise e ->
    cells_run i st (td_tag :: rest) (Raise e).

Inductive rows_run
    : nat -> ScrapeState -> list Element -> result ScrapeState -> Prop :=
| rows_done (i : nat) (st : ScrapeState) :
    rows_run i st [] (Return st)
| rows_next (i : nat) (st st' : ScrapeState) (tr_tag : Element)
    (rest : list Element) (r : result ScrapeState) :
    cells_run i st (findall "td" tr_tag) (Return st') ->
    rows_run (S i) st' rest r ->
    rows_run i st (tr_tag :: rest) r
| rows_raise (i : nat) (st : ScrapeState) (tr_tag : Element)
    (rest : list Element) (e : exn) :
    cells_run i st (findall "td" tr_tag) (Raise e) ->
    rows_run i st (tr_tag :: rest) (Raise e).

Inductive scrape_run (fromstring : string -> result (option Element))
    (diff : string) : result AliasDiff -> Prop :=
| run_empty :
    String.length diff = 0 ->
    scrape_run fromstring diff (Raise RuntimeError)
| run_parser_raises (e : exn) :
    String.length diff <> 0 ->
    fromstring diff = Raise e ->
    scrape_run fromstring diff (Raise e)
| run_no_tree :
    String.length diff <> 0 ->
    fromstring diff = Return None ->
    scrape_run fromstring diff (Raise RuntimeError)
| run_rows (tree : Element) (st : ScrapeState) :
    String.length diff <> 0 ->
    fromstring diff = Return (Some tree) ->
    rows_run 1 scrape_init (xpath_tr tree) (Return st) ->
    scrape_run fromstring diff (Return (scraped st))
| run_rows_raise (tree : Element) (e : exn) :
    String.length diff <> 0 ->
    fromstring diff = Return (Some tree) ->
    rows_run 1 scrape_init (xpath_tr tree) (Raise e) ->
    scrape_run fromstring diff (Raise e).

(** ** The summary patterns *)

(** The character classes of the patterns: [\d], [[a-z_]], [[a-z0-9-]] and
    [[a-z-]].  A character of a [string] is a code point below 256, and among
    these the decimal digits that [\d] matches are [0] to [9]; decoded text
    with code points beyond is outside this model. *)
Definition is_digit (c : ascii) : bool :=
  Nat.leb 48 (nat_of_ascii c) && Nat.leb (nat_of_ascii c) 57.

Definition is_lower (c : ascii) : bool :=
  Nat.leb 97 (nat_of_ascii c) && Nat.leb (nat_of_ascii c) 122.

Definition site_char (c : ascii) : bool := is_lower c || Ascii.eqb c "_".

Definition lang_char (c : ascii) : bool :=
  is_lower c || is_digit c || Ascii.eqb c "-".

Definition client_char (c : ascii) : bool := is_lower c || Ascii.eqb c "-".

(** The line feed, the one character that [.] does not match. *)
Definition newline : ascii := ascii_of_nat 10.

(** The longest run of characters of a class at the start of a string, and
    what follows it: how a greedy [[...]+] matches when the next piece of the
    pattern starts with a character outside the class. *)
Fixpoint span (p : ascii -> bool) (s : string) : string * string :=
  match s with
  | EmptyString => (EmptyString, EmptyString)
  | String c s' =>
      if p c then (String c (fst (span p s')), snd (span p s'))
      else (EmptyString, s)
  end.

(** A literal piece of a pattern: the string without it, when it starts
    with it. *)
Fixpoint strip_prefix (p s : string) : option string :=
  match p with
  | EmptyString => Some s
  | String a p' =>
      match s with
      | EmptyString => None
      | String b s' => if Ascii.eqb a b then strip_prefix p' s' else None
      end
  end.

(** The last group, any characters up to [$]: the group is the rest of the
    string, which holds no line feed but for one that ends it, and that one
    stays out of the group. *)
Fixpoint to_end (s : string) : option string :=
  match s with
  | EmptyString => Some EmptyString
  | String c s' =>
      if Ascii.eqb c newline then
        match s' with
        | EmptyString => Some EmptyString
        | String _ _ => None
        end
      else
        match to_end s' with
        | Some v => Some (String c v)
        | None => None
        end
  end.

(** The class of the key in the pattern of an action, and the bars that
    precede the key. *)
Definition key_class (a : action) : ascii -> bool :=
  match a with
  | wbsetsitelink_remove | wbsetsitelink_add => site_char
  | clientsitelink_remove => client_char
  | _ => lang_char
  end.

Definition bars (a : action) : string :=
  match a with
  | clientsitelink_remove => "||"
  | _ => "|"
  end.

(** [re_match(pattern, summary)] for the pattern of the action: the
    literal [/* action:], a group of digits, the bar (two bars for
    [clientsitelink-remove]), a group of key characters, the literal [ */ ]
    and a group with the rest of the line.  The result is the three groups,
    or [None]. *)
Definition re_match (a : action) (summary : string)
    : option (string * string * string) :=
  match strip_prefix ("/* " +:+ action_name a +:+ ":") summary with
  | None => None
  | Some after_action =>
      let digits := fst (span is_digit after_action) in
      if Nat.eqb (String.length digits) 0 then None else
      match strip_prefix (bars a) (snd (span is_digit after_action)) with
      | None => None
      | Some after_bars =>
          let key := fst (span (key_class a) after_bars) in
          if Nat.eqb (String.length key) 0 then None else
          match strip_prefix " */ " (snd (span (key_class a) after_bars)) with
          | None => None
          | Some after_key =>
              match to_end after_key with
              | None => None
              | Some value => Some (digits, key, value)
              end
          end
      end
  end.

(** ** Processing the revisions of an action *)

(** A row of the replica query: the revision id and, as bytes, the title of
    the page and the edit summary. *)
Record Row : Type := {
  rc_this_oldid : nat;
  rc_title : string;
  comment_text : string;
}.

(** The JSON object that the [compare] call answers with: each value may be
    [null]. *)
Definition Payload : Type :=
  gmap string (option (gmap string (option string))).

(** What [process_revision_subset] reaches beside the wiki's items: the
    replica ([query_revision_subset] with [DAY_LIMIT = None]), the codec
    ([bytes.decode('utf8')]), the [compare] request with its JSON answer,
    lxml's parser, and [next(SITE.patrol(revid=revision_id))]. *)
Record Env : Type := {
  wiki : World;
  query_revision_subset : action -> result (list Row);
  decode_utf8 : string -> result string;
  requests_get_compare : nat -> result Payload;
  fromstring : string -> result (option Element);
  SITE_patrol : nat -> result unit;
}.

Definition get_revision_diff (env : Env) (revision_id : nat) : result string :=
  let* payload := requests_get_compare env revision_id in
  match payload !! "compare" with
  | None | Some None => Raise RuntimeError
  | Some (Some compare) =>
      match compare !! "*" with
      | None | Some None => Raise RuntimeError
      | Some (Some diff) => Return diff
      end
  end.

Definition is_RuntimeError (e : exn) : bool :=
  match e with RuntimeError => true | _ => false end.

(** The value handed to the check function: the captured text, replaced for
    an alias action by the scraped diff, or by [None] when fetching the diff
    raised a [RuntimeError].  The scraper runs in the [else] branch of the
    [try], so what it raises is not caught. *)
Definition value_of_row (env : Env) (a : action) (revision_id : nat)
    (value : string) : result (intent_value a) :=
  if is_alias_action a as b
     return result (if b then option AliasDiff else string)
  then
    try_except (get_revision_diff env revision_id) is_RuntimeError
      (Return None)
      (fun diff =>
         let* scraped_diff := scrape_aliases_from_diff (fromstring env) diff in
         Return (Some scraped_diff))
  else Return value.

(** What the loop prints: a line per patrolled revision and a progress line
    at every hundredth row that is not patrolled. *)
Inductive event : Type :=
| Patrolled (i total : nat) (qid key : string) (revision_id : nat)
| Progress (i total : nat).

(** The body of the loop of [process_revision_subset] for row number [i] of
    [total]. *)
Definition process_row (env : Env) (a : action) (i total : nat) (elem : Row)
    : result (list event) :=
  let* comment := decode_utf8 env (comment_text elem) in
  match re_match a comment with
  | None => Return []
  | Some (_, key, value) =>
      let* qid := decode_utf8 env (rc_title elem) in
      let revision_id := rc_this_oldid elem in
      let* value := value_of_row env a revision_id value in
      let* verdict := check_function a (wiki env) qid key value in
      if verdict then
        let* _ := SITE_patrol env revision_id in
        Return [Patrolled i total qid key revision_id]
      else if Nat.eqb (i mod 100) 0 then Return [Progress i total]
      else Return []
  end.

(** The loop from row number [i] on: what was printed, and the exception
    that ended the loop, if one did. *)
Fixpoint process_rows (env : Env) (a : action) (i total : nat)
    (rows : list Row) : list event * option exn :=
  match rows with
  | [] => ([], None)
  | elem :: rest =>
      match process_row env a i total elem with
      | Raise e => ([], Some e)
      | Return events =>
          (events ++ fst (process_rows env a (S i) total rest),
           snd (process_rows env a (S i) total rest))
      end
  end.

Definition process_revision_subset (env : Env) (a : action)
    : list event * option exn :=
  match query_revision_subset env a with
  | Raise e => ([], Some e)
  | Return query_result =>
      process_rows env a 1 (List.length query_result) query_result
  end.

(** The revisions that a run patrolled, in the order of the calls. *)
Definition patrolled (events : list event) : list nat :=
  List.flat_map
    (fun ev => match ev with
               | Patrolled _ _ _ _ revision_id => [revision_id]
               | Progress _ _ => []
               end)
    events.

(** ** The vocabulary of the properties *)

(** An alias of a diff is present in a list of live aliases when it is a
    string (not [None]) that occurs in the list. *)
Definition present_in (alias : option string) (live : list string) : Prop :=
  exists s, alias = Some s /\ In s live.

(** The condition under which an added or modified text no longer stands:
    the collection is empty, or has no entry for the language, or has another
    text there. *)
Definition superseded (d : gmap string string) (key value : string) : Prop :=
  d = ∅ \/ d !! key = None \/ exists current, d !! key = Some current /\ current <> value.

(** The three checks that [should_patrol_label_modification] and
    [should_patrol_description_modification] make on the loaded item. *)
Definition modification_checks (d : gmap string string) (key value : string)
    : bool :=
  negb (PyDict.truthy d) || negb (PyDict.contains key d) || differs d key value.

(** The aliases that the item has in a language: the entry of the dict, or
    nothing when the dict has no entry for it. *)
Definition live_aliases (item_page : ItemPage) (key : string) : list string :=
  match aliases item_page !! key with
  | Some live => live
  | None => []
  end.

(** The item of [w] with its descriptions in the place of its labels. *)
Definition descriptions_as_labels (w : World) : World :=
  {| pwb_ItemPage := fun qid =>
       {| exists_ := exists_ (pwb_ItemPage w qid);
          isRedirectPage := isRedirectPage (pwb_ItemPage w qid);
          sitelinks := sitelinks (pwb_ItemPage w qid);
          labels := descriptions (pwb_ItemPage w qid);
          descriptions := descriptions (pwb_ItemPage w qid);
          aliases := aliases (pwb_ItemPage w qid) |};
     fromDBName := fromDBName w;
     pwb_Page := pwb_Page w |}.

(** Every character of a string is in a class. *)
Fixpoint all_in (p : ascii -> bool) (s : string) : bool :=
  match s with
  | EmptyString => true
  | String c s' => p c && all_in p s'
  end.

Definition not_newline (c : ascii) : bool := negb (Ascii.eqb c newline).

(** The edit summary that the wiki writes for an action, an entity number, a
    key and a value. *)
Definition summary_of (a : action) (digits key value : string) : string :=
  "/* " +:+ action_name a +:+ ":" +:+ digits +:+ bars a +:+ key +:+ " */ "
  +:+ value.





(** A row is approved: its summary and title decode, the summary matches the
    pattern of the action, the value is obtained, the check function returns
    [True] and the patrol call returns. *)
Definition approved (env : Env) (a : action) (elem : Row) : Prop :=
  exists (comment digits key value qid : string) (v : intent_value a),
    decode_utf8 env (comment_text elem) = Return comment /\
    re_match a comment = Some (digits, key, value) /\
    decode_utf8 env (rc_title elem) = Return qid /\
    value_of_row env a (rc_this_oldid elem) value = Return v /\
    check_function a (wiki env) qid key v = Return true /\
    SITE_patrol env (rc_this_oldid elem) = Return tt.

(** The summary of a row decodes and does not match the pattern. *)
Definition unmatched (env : Env) (a : action) (elem : Row) : Prop :=
  exists comment : string,
    decode_utf8 env (comment_text elem) = Return comment /\
    re_match a comment = None.

(** The [compare] answer lacks the [compare] object or its [*] field. *)
Definition lacks_diff (payload : Payload) : Prop :=
  match payload !! "compare" with
  | Some (Some compare) =>
      match compare !! "*" with
      | Some (Some _) => False
      | _ => True
      end
  | _ => True
  end.

(** A header cell that announces a change of aliases, and a row that holds
    one. *)
Definition alias_header (td_tag : Element) : bool :=
  cls_is (attrib td_tag !! "class") "diff-lineno"
  && PyStr.startswith "aliases / " (PyStr.str_of_text (text td_tag)).

Definition announces_aliases (tr_tag : Element) : bool :=
  existsb alias_header (findall "td" tr_tag).

(** The cell has the class [cls] and the text [x] in the element [name] of
    its [div]. *)
Definition cell_gives (cls name : string) (td_tag : Element)
    (x : option string) : Prop :=
  attrib td_tag !! "class" = Some cls /\ inner_text name td_tag = Return x.

(** Some cell of some row gives [x]. *)
Definition rows_give (cls name : string) (tr_tags : list Element)
    (x : option string) : Prop :=
  exists tr_tag td_tag,
    In tr_tag tr_tags /\ In td_tag (findall "td" tr_tag) /\
    cell_gives cls name td_tag x.

(** ** Sample states *)

Module Samples.

(** An item with the given flags and content. *)
Definition item (ex redirect : bool) (lab desc : gmap string string)
    (al : gmap string (list string)) : ItemPage :=
  {| exists_ := Return ex;
     isRedirectPage := redirect;
     sitelinks := ∅;
     labels := lab;
     descriptions := desc;
     aliases := al |}.

(** A wiki on which every id shows the same item [p]; every client page
    exists and is connected to [Q1]. *)
Definition world_of (p : ItemPage) : World :=
  {| pwb_ItemPage := fun _ => p;
     fromDBName := fun _ => Return "wikipedia:en";
     pwb_Page := fun _ _ _ =>
       Return {| page_exists := Return true; fromPage := Return "Q1" |} |}.

Definition redirected : World := world_of (item true true ∅ ∅ ∅).
Definition vanished : World := world_of (item false false ∅ ∅ ∅).

Definition labelled (lang current : string) : World :=
  world_of (item true false {[ lang := current ]} {[ lang := current ]} ∅).

Definition aliased (lang : string) (present : list string) : World :=
  world_of (item true false ∅ ∅ {[ lang := present ]}).

Definition no_aliases : World := world_of (item true false ∅ ∅ ∅).

(** An item that exists, is no redirect and has one site link, rendered as
    [rendered]; every client page is [page]. *)
Definition linked (site rendered : string) (page : Page) : World :=
  {| pwb_ItemPage := fun _ =>
       {| exists_ := Return true;
          isRedirectPage := false;
          sitelinks := {[ site := Return (Return rendered) ]};
          labels := ∅;
          descriptions := ∅;
          aliases := ∅ |};
     fromDBName := fun _ => Return "wikipedia:en";
     pwb_Page := fun _ _ _ => Return page |}.

(** A client page that exists and is connected to the item [qid], and one
    that has been deleted. *)
Definition page_of (qid : string) : Page :=
  {| page_exists := Return true; fromPage := Return qid |}.

Definition deleted_page : Page :=
  {| page_exists := Return false; fromPage := Raise NoPageError |}.

Definition diff_of (added removed : list string) : AliasDiff :=
  {| add := List.map Some added; remove := List.map Some removed |}.

(** A cell of the diff table and the [<div>] that wraps a changed text. *)
Definition td (cls : string) (txt : option string) (inner : list Element)
    : Element :=
  Elem "td" {[ "class" := cls ]} txt inner.

Definition changed (name txt : string) : Element :=
  Elem "div" ∅ None [Elem name ∅ (Some txt) []].

(** A diff in which the alias [X] of English is replaced by [Y], and the
    tree that the HTML parser makes of it. *)
Definition alias_diff_html : string :=
  "<tr><td class='diff-lineno'>aliases / en / 0</td></tr><tr><td class='diff-deletedline'><div><del>X</del></div></td><td class='diff-addedline'><div><ins>Y</ins></div></td></tr>".

Definition alias_diff_tree : Element :=
  Elem "html" ∅ None
    [Elem "body" ∅ None
       [Elem "tr" ∅ None [td "diff-lineno" (Some "aliases / en / 0") []];
        Elem "tr" ∅ None
          [td "diff-deletedline" None [changed "del" "X"];
           td "diff-addedline" None [changed "ins" "Y"]]]].

(** A parser that knows this one document. *)
Definition parser (s : string) : result (option Element) :=
  if String.eqb s alias_diff_html then Return (Some alias_diff_tree)
  else Return None.

(** Rows of plain ASCII, an environment in which they decode to themselves
    and every patrol call returns, and a [compare] answer with the diff
    [html]. *)
Definition row (revision_id : nat) (title summary : string) : Row :=
  {| rc_this_oldid := revision_id; rc_title := title; comment_text := summary |}.

Definition env_of (w : World) (rows : list Row)
    (compare : nat -> result Payload) : Env :=
  {| wiki := w;
     query_revision_subset := fun _ => Return rows;
     decode_utf8 := fun bytes => Return bytes;
     requests_get_compare := compare;
     fromstring := parser;
     SITE_patrol := fun _ => Return tt |}.

(** A diff that changes the English label, as a tree, and a parser that
    returns it for every string. *)
Definition label_diff_tree : Element :=
  Elem "html" ∅ None
    [Elem "body" ∅ None
       [Elem "tr" ∅ None [td "diff-lineno" (Some "label / en") []];
        Elem "tr" ∅ None
          [td "diff-deletedline" None [changed "del" "old"];
           td "diff-addedline" None [changed "ins" "new"]]]].

Definition label_parser (s : string) : result (option Element) :=
  Return (Some label_diff_tree).

Definition compare_of (html : string) : Payload :=
  {[ "compare" := Some {[ "*" := Some html ]} ]}.

End Samples.

(** ** Proof steps shared by the decision functions *)

(** Rewrite with what is known of [exists()] and [isRedirectPage()] and
    evaluate the guards that this settles. *)
Ltac settle_guards :=
  repeat match goal with
         | H : exists_ _ = _ |- _ => rewrite H
         | H : isRedirectPage _ = _ |- _ => rewrite H
         end;
  cbn [bind try_except negb].

Ltac unfold_decisions :=
  unfold should_patrol_sitelink_removal, should_patrol_sitelink_addition,
    should_patrol_label_removal, should_patrol_label_modification,
    should_patrol_description_removal, should_patrol_description_modification,
    should_patrol_alias_additions, should_patrol_alias_removals,
    should_patrol_alias_modifications.

(** ** Facts about the dict and list helpers *)

Lemma truthy_false_iff {V : Type} (d : gmap string V) :
  PyDict.truthy d = false <-> d = ∅.
Proof.
  unfold PyDict.truthy. rewrite negb_false_iff, Nat.eqb_eq.
  apply map_size_empty_iff.
Qed.

Lemma truthy_of_lookup {V : Type} (d : gmap string V) (key : string) (v : V) :
  d !! key = Some v -> PyDict.truthy d = true.
Proof.
  intros Hget. destruct (PyDict.truthy d) eqn:Ht; [reflexivity|].
  apply truthy_false_iff in Ht. subst d. rewrite lookup_empty in Hget.
  discriminate.
Qed.

Lemma contains_true_iff {V : Type} (key : string) (d : gmap string V) :
  PyDict.contains key d = true <-> is_Some (d !! key).
Proof.
  unfold PyDict.contains. destruct (d !! key) as [v|].
  - split; [eauto | reflexivity].
  - split; [discriminate | intros [v Hv]; discriminate].
Qed.

Lemma text_in_true_iff (alias : option string) (live : list string) :
  text_in alias live = true <-> present_in alias live.
Proof.
  unfold text_in, present_in. destruct alias as [s|].
  - rewrite existsb_exists. split.
    + intros (x & Hin & Heq). apply String.eqb_eq in Heq. subst x. eauto.
    + intros (s' & [= <-] & Hin). exists s. split; [assumption|].
      apply String.eqb_refl.
  - split; [discriminate | intros (s & Heq & _); discriminate].
Qed.

Lemma text_in_false_iff (alias : option string) (live : list string) :
  text_in alias live = false <-> ~ present_in alias live.
Proof.
  rewrite <- text_in_true_iff.
  destruct (text_in alias live); split; intros H; congruence.
Qed.

Lemma filter_length_0_iff {A : Type} (f : A -> bool) (l : list A) :
  Nat.eqb (List.length (List.filter f l)) 0 = true
  <-> List.Forall (fun x => f x = false) l.
Proof.
  rewrite Nat.eqb_eq. induction l as [|x l IH]; simpl.
  - split; [constructor | reflexivity].
  - destruct (f x) eqn:Hfx; simpl.
    + split; [discriminate|]. intros HF. inversion HF; subst. congruence.
    + rewrite IH. split.
      * intros HF. constructor; assumption.
      * intros HF. inversion HF; subst. assumption.
Qed.

(** ** The scenarios of the specification, run on the embedding *)

Example sitelink_removal_restored :
  should_patrol_sitelink_removal
    (Samples.linked "enwiki" "[[Page A]]" (Samples.page_of "Q7"))
    "Q7" "enwiki" "Page A" = Return true.
Proof. vm_compute. reflexivity. Qed.

Example sitelink_removal_replaced :
  should_patrol_sitelink_removal
    (Samples.linked "enwiki" "[[Page B]]" (Samples.page_of "Q7"))
    "Q7" "enwiki" "Page A" = Return false.
Proof. vm_compute. reflexivity. Qed.

Example sitelink_removal_page_deleted :
  should_patrol_sitelink_removal
    (Samples.linked "enwiki" "[[Page B]]" Samples.deleted_page)
    "Q7" "enwiki" "Page A" = Return true.
Proof. vm_compute. reflexivity. Qed.

Example sitelink_removal_page_moved :
  should_patrol_sitelink_removal
    (Samples.linked "enwiki" "[[Page B]]" (Samples.page_of "Q8"))
    "Q7" "enwiki" "Page A" = Return true.
Proof. vm_compute. reflexivity. Qed.

Example sitelink_addition_stands :
  should_patrol_sitelink_addition
    (Samples.linked "enwiki" "[[Page A]]" (Samples.page_of "Q7"))
    "Q7" "enwiki" "Page A" = Return false.
Proof. vm_compute. reflexivity. Qed.

Example sitelink_addition_replaced :
  should_patrol_sitelink_addition
    (Samples.linked "enwiki" "[[Page B]]" (Samples.page_of "Q7"))
    "Q7" "enwiki" "Page A" = Return true.
Proof. vm_compute. reflexivity. Qed.

Example sitelink_addition_other_site :
  should_patrol_sitelink_addition
    (Samples.linked "dewiki" "[[Seite A]]" (Samples.page_of "Q7"))
    "Q7" "enwiki" "Page A" = Return true.
Proof. vm_compute. reflexivity. Qed.

Example label_removal_restored :
  should_patrol_label_removal (Samples.labelled "en" "old") "Q7" "en" "old"
  = Return true.
Proof. vm_compute. reflexivity. Qed.

Example label_removal_still_gone :
  should_patrol_label_removal Samples.no_aliases "Q7" "en" "old" = Return false.
Proof. vm_compute. reflexivity. Qed.

Example alias_addition_stands :
  should_patrol_alias_additions (Samples.aliased "en" ["X"]) "Q7" "en"
    (Some (Samples.diff_of ["X"] [])) = Return false.
Proof. vm_compute. reflexivity. Qed.

Example alias_addition_reverted :
  should_patrol_alias_additions (Samples.aliased "en" []) "Q7" "en"
    (Some (Samples.diff_of ["X"] [])) = Return true /\
  should_patrol_alias_additions Samples.no_aliases "Q7" "en"
    (Some (Samples.diff_of ["X"] [])) = Return true.
Proof. split; vm_compute; reflexivity. Qed.

Example split_examples :
  PyStr.split2 "," " " "a, b,c, " = ["a"; "b,c"; ""] /\
  PyStr.split2 "," " " "a,, b" = ["a,"; "b"] /\
  PyStr.split1 ":" "wikipedia:en" = ["wikipedia"; "en"] /\
  PyStr.slice_2_m2 "[[Page A]]" = "Page A" /\
  PyStr.slice_2_m2 "[[]" = "".
Proof. repeat split. Qed.

Example tidy_examples :
  tidy_description "Shortdesc, ([[w:en:Wikipedia:Shortdesc helper|Shortdesc helper]])"
  = "Shortdesc" /\
  tidy_description "a, b, #suggestededit-translate 1.0" = "a, b" /\
  tidy_description "#suggestededit-add 1.0" = "#suggestededit-add 1.0" /\
  tidy_description "a,#suggestededit-add 1.0" = "a,#suggestededit-add 1.0".
Proof. repeat split. Qed.

Example scrape_other_attribute :
  scrape_rows 1 scrape_init
    [Elem "tr" ∅ None [Samples.td "diff-lineno" (Some "label / en") []];
     Elem "tr" ∅ None
       [Samples.td "diff-deletedline" None [Samples.changed "del" "X"]]]
  = Return scrape_init.
Proof. reflexivity. Qed.

Example scrape_cell_without_div :
  scrape_rows 1 scrape_init
    [Elem "tr" ∅ None [Samples.td "diff-lineno" (Some "aliases / en / 0") []];
     Elem "tr" ∅ None [Samples.td "diff-addedline" (Some "Y") []]]
  = Raise AttributeError.
Proof. reflexivity. Qed.

Example scrape_example :
  scrape_aliases_from_diff Samples.parser Samples.alias_diff_html
  = Return (Samples.diff_of ["Y"] ["X"]) /\
  scrape_aliases_from_diff Samples.parser "" = Raise RuntimeError /\
  scrape_aliases_from_diff Samples.parser "<p>" = Raise RuntimeError.
Proof. repeat split. Qed.

(** ** The checks every decision function starts with *)

(** C9. The site-link deletion predicate approves every input: whatever the
    subject id, the key and the value, and whatever the state of the wiki,
    which it does not read. *)
Theorem sitelink_deletion_always_approves :
  (forall (V : Type) (qid key : string) (value : V),
     should_patrol_sitelink_deletion qid key value = true) /\
  (forall (w : World) (qid key value : string),
     check_function clientsitelink_remove w qid key value = Return true).
Proof. split; intros; reflexivity. Qed.

(** C4. With a value of [None] (the diff could not be fetched) each of the
    three alias predicates returns [False], and so does the check of each of
    the four alias actions, for every wiki state, subject id and key. *)
Theorem alias_null_value_denied :
  forall (w : World) (qid key : string),
    should_patrol_alias_additions w qid key None = Return false /\
    should_patrol_alias_removals w qid key None = Return false /\
    should_patrol_alias_modifications w qid key None = Return false /\
    check_function wbsetaliases_add w qid key None = Return false /\
    check_function wbsetaliases_remove w qid key None = Return false /\
    check_function wbsetaliases_set w qid key None = Return false /\
    check_function wbsetaliases_update w qid key None = Return false.
Proof. intros w qid key. repeat split. Qed.

Lemma vanished_text_predicates (w : World) (qid key value : string) :
  exists_ (pwb_ItemPage w qid) = Return false ->
  should_patrol_sitelink_removal w qid key value = Return false /\
  should_patrol_sitelink_addition w qid key value = Return false /\
  should_patrol_label_removal w qid key value = Return false /\
  should_patrol_label_modification w qid key value = Return false /\
  should_patrol_description_removal w qid key value = Return false /\
  should_patrol_description_modification w qid key value = Return false.
Proof.
  intros Hex. unfold_decisions.
  repeat split; settle_guards; reflexivity.
Qed.

Lemma vanished_alias_predicates (w : World) (qid key : string)
    (value : option AliasDiff) :
  exists_ (pwb_ItemPage w qid) = Return false ->
  should_patrol_alias_additions w qid key value = Return false /\
  should_patrol_alias_removals w qid key value = Return false /\
  should_patrol_alias_modifications w qid key value = Return false.
Proof.
  intros Hex. unfold_decisions.
  destruct value as [d|]; [|repeat split].
  repeat split.
  - destruct (Nat.ltb 0 (List.length (remove d))); [reflexivity|].
    settle_guards. reflexivity.
  - destruct (Nat.ltb 0 (List.length (add d))); [reflexivity|].
    settle_guards. reflexivity.
  - settle_guards. reflexivity.
Qed.

(** C5. When [exists()] answers [False] for the subject, the check of every
    action other than the site-link deletion one returns [False]: for every
    key, every text value, and every alias value, [None] included. *)
Theorem vanished_subject_denied :
  forall (a : action) (w : World) (qid key : string) (value : intent_value a),
    a <> clientsitelink_remove ->
    exists_ (pwb_ItemPage w qid) = Return false ->
    check_function a w qid key value = Return false.
Proof.
  intros a w qid key value Hkind Hex.
  destruct a; cbn in value |- *;
    try apply (vanished_text_predicates w qid key value Hex);
    try apply (vanished_alias_predicates w qid key value Hex).
  congruence.
Qed.

Lemma vanished_subject_denied_witness :
  should_patrol_sitelink_removal Samples.vanished "Q7" "enwiki" "Page A"
    = Return false /\
  should_patrol_alias_additions Samples.vanished "Q7" "en"
    (Some (Samples.diff_of ["X"] [])) = Return false.
Proof.
  split.
  - apply (vanished_subject_denied wbsetsitelink_remove Samples.vanished
             "Q7" "enwiki" "Page A"); [discriminate | reflexivity].
  - apply (vanished_subject_denied wbsetaliases_add Samples.vanished
             "Q7" "en" (Some (Samples.diff_of ["X"] [])));
      [discriminate | reflexivity].
Defined.

Lemma redirect_text_predicates (w : World) (qid key value : string) :
  exists_ (pwb_ItemPage w qid) = Return true ->
  isRedirectPage (pwb_ItemPage w qid) = true ->
  should_patrol_sitelink_removal w qid key value = Return false /\
  should_patrol_sitelink_addition w qid key value = Return true /\
  should_patrol_label_removal w qid key value = Return true /\
  should_patrol_label_modification w qid key value = Return true /\
  should_patrol_description_removal w qid key value = Return true /\
  should_patrol_description_modification w qid key value = Return true.
Proof.
  intros Hex Hred. unfold_decisions.
  repeat split; settle_guards; reflexivity.
Qed.

Lemma redirect_alias_predicates (w : World) (qid key : string)
    (diff : AliasDiff) :
  exists_ (pwb_ItemPage w qid) = Return true ->
  isRedirectPage (pwb_ItemPage w qid) = true ->
  should_patrol_alias_additions w qid key (Some diff)
  = Return (Nat.eqb (List.length (remove diff)) 0) /\
  should_patrol_alias_removals w qid key (Some diff)
  = Return (Nat.eqb (List.length (add diff)) 0) /\
  should_patrol_alias_modifications w qid key (Some diff) = Return true.
Proof.
  intros Hex Hred. unfold_decisions.
  repeat split.
  - destruct (remove diff) as [|x l]; cbn [List.length Nat.ltb Nat.leb Nat.eqb];
      [settle_guards|]; reflexivity.
  - destruct (add diff) as [|x l]; cbn [List.length Nat.ltb Nat.leb Nat.eqb];
      [settle_guards|]; reflexivity.
  - settle_guards. reflexivity.
Qed.

(** C1, as the code has it.  When the subject exists and is a redirect, the
    check of every action on a text value approves whatever the key and the
    value, except that of site-link removal, which denies.  The checks of the
    alias actions look at the value first: alias addition approves exactly
    when the diff has no removed entry, alias removal exactly when it has no
    added entry, alias set and update for every diff, and none of them for a
    value of [None]. *)
Theorem redirect_decisions :
  forall (w : World) (qid key : string),
    exists_ (pwb_ItemPage w qid) = Return true ->
    isRedirectPage (pwb_ItemPage w qid) = true ->
    (forall (a : action) (value : intent_value a),
       is_alias_action a = false ->
       a <> wbsetsitelink_remove ->
       check_function a w qid key value = Return true) /\
    (forall value : string,
       check_function wbsetsitelink_remove w qid key value = Return false) /\
    (forall diff : AliasDiff,
       check_function wbsetaliases_add w qid key (Some diff)
       = Return (Nat.eqb (List.length (remove diff)) 0) /\
       check_function wbsetaliases_remove w qid key (Some diff)
       = Return (Nat.eqb (List.length (add diff)) 0) /\
       check_function wbsetaliases_set w qid key (Some diff) = Return true /\
       check_function wbsetaliases_update w qid key (Some diff) = Return true) /\
    check_function wbsetaliases_add w qid key None = Return false /\
    check_function wbsetaliases_remove w qid key None = Return false /\
    check_function wbsetaliases_set w qid key None = Return false /\
    check_function wbsetaliases_update w qid key None = Return false.
Proof.
  intros w qid key Hex Hred.
  split; [|split; [|split; [|repeat split]]].
  - intros a value Hkind Hnot.
    destruct a; cbn in value, Hkind |- *; try discriminate Hkind;
      try apply (redirect_text_predicates w qid key value Hex Hred).
    + congruence.
    + reflexivity.
  - intros value. apply (redirect_text_predicates w qid key value Hex Hred).
  - intros diff.
    pose proof (redirect_alias_predicates w qid key diff Hex Hred)
      as (Hadd & Hrem & Hmod).
    repeat split; assumption.
Qed.

Lemma redirect_decisions_witness :
  should_patrol_label_removal Samples.redirected "Q7" "en" "old" = Return true /\
  should_patrol_sitelink_removal Samples.redirected "Q7" "enwiki" "Page A"
    = Return false.
Proof.
  split.
  - apply (proj1 (redirect_decisions Samples.redirected "Q7" "en"
                    eq_refl eq_refl) wbsetlabel_remove "old").
    + reflexivity.
    + discriminate.
  - apply (proj1 (proj2 (redirect_decisions Samples.redirected "Q7" "enwiki"
                           eq_refl eq_refl)) "Page A").
Defined.

(** C1 as stated fails: on a subject that exists and is a redirect the
    site-link removal check returns [False], and so does an alias check whose
    value is [None]. *)
Lemma redirect_not_always_approved :
  exists_ (pwb_ItemPage Samples.redirected "Q7") = Return true /\
  isRedirectPage (pwb_ItemPage Samples.redirected "Q7") = true /\
  wbsetsitelink_remove <> clientsitelink_remove /\
  check_function wbsetsitelink_remove Samples.redirected "Q7" "enwiki" "Page A"
  = Return false /\
  should_patrol_sitelink_removal Samples.redirected "Q7" "enwiki" "Page A"
  = Return false /\
  check_function wbsetaliases_remove Samples.redirected "Q7" "en" None
  = Return false.
Proof. repeat split. discriminate. Qed.

(** ** Labels and descriptions *)

Lemma modification_checks_true_iff (d : gmap string string) (key value : string) :
  modification_checks d key value = true <-> superseded d key value.
Proof.
  unfold modification_checks, superseded, differs.
  rewrite !orb_true_iff, !negb_true_iff, truthy_false_iff.
  unfold PyDict.contains.
  destruct (d !! key) as [current|] eqn:Hget.
  - rewrite negb_true_iff, String.eqb_neq. split.
    + intros [[H|H]|H]; [left; assumption | discriminate |].
      right. right. exists current. split; [reflexivity | assumption].
    + intros [H|[H|(c & [= <-] & Hne)]]; [left; left; assumption | discriminate |].
      right. assumption.
  - split.
    + intros _. right. left. reflexivity.
    + intros _. left. right. reflexivity.
Qed.

Lemma label_modification_loaded (w : World) (qid key value : string) :
  exists_ (pwb_ItemPage w qid) = Return true ->
  isRedirectPage (pwb_ItemPage w qid) = false ->
  should_patrol_label_modification w qid key value
  = Return (modification_checks (labels (pwb_ItemPage w qid)) key value).
Proof.
  intros Hex Hred. unfold should_patrol_label_modification, modification_checks.
  settle_guards.
  destruct (PyDict.truthy _); cbn [negb orb]; [|reflexivity].
  destruct (PyDict.contains _ _); cbn [negb orb]; [|reflexivity].
  destruct (differs _ _ _); reflexivity.
Qed.

Lemma description_modification_loaded (w : World) (qid key value : string) :
  exists_ (pwb_ItemPage w qid) = Return true ->
  isRedirectPage (pwb_ItemPage w qid) = false ->
  should_patrol_description_modification w qid key value
  = Return (modification_checks (descriptions (pwb_ItemPage w qid)) key
              (tidy_description value)).
Proof.
  intros Hex Hred.
  unfold should_patrol_description_modification, modification_checks.
  settle_guards.
  destruct (PyDict.truthy _); cbn [negb orb]; [|reflexivity].
  destruct (PyDict.contains _ _); cbn [negb orb]; [|reflexivity].
  destruct (differs _ _ _); reflexivity.
Qed.

(** C6. For a subject that exists and is not a redirect, the label
    addition/modification predicate returns a verdict, and the verdict is
    approval if and only if the item has no labels at all, or none in the
    language of the intent, or a label there that differs from the edited
    value; it denies when the live label equals the edited value. *)
Theorem label_modification_decision :
  forall (w : World) (qid key value : string),
    exists_ (pwb_ItemPage w qid) = Return true ->
    isRedirectPage (pwb_ItemPage w qid) = false ->
    (exists verdict, should_patrol_label_modification w qid key value = Return verdict) /\
    (should_patrol_label_modification w qid key value = Return true
     <-> superseded (labels (pwb_ItemPage w qid)) key value) /\
    (labels (pwb_ItemPage w qid) !! key = Some value ->
     should_patrol_label_modification w qid key value = Return false).
Proof.
  intros w qid key value Hex Hred.
  rewrite (label_modification_loaded w qid key value Hex Hred).
  split; [eauto|]. split.
  - rewrite <- modification_checks_true_iff. split; congruence.
  - intros Hsame. f_equal.
    destruct (modification_checks _ key value) eqn:Hc; [|reflexivity].
    apply modification_checks_true_iff in Hc.
    destruct Hc as [Hc|[Hc|(c & Hc & Hne)]].
    + rewrite Hc, lookup_empty in Hsame. discriminate.
    + congruence.
    + congruence.
Qed.

Lemma label_modification_decision_witness :
  should_patrol_label_modification (Samples.labelled "en" "new") "Q7" "en" "new"
    = Return false /\
  should_patrol_label_modification (Samples.labelled "en" "different") "Q7" "en" "new"
    = Return true.
Proof.
  split.
  - apply (label_modification_decision (Samples.labelled "en" "new") "Q7" "en" "new"
             eq_refl eq_refl).
    reflexivity.
  - apply (label_modification_decision (Samples.labelled "en" "different")
             "Q7" "en" "new" eq_refl eq_refl).
    right. right. exists "different". split; [reflexivity | discriminate].
Defined.

(** ** Aliases *)

Lemma select_aliases_loaded (keep_present : bool)
    (candidates : list (option string)) (d : gmap string (list string))
    (key : string) (live : list string) :
  d !! key = Some live ->
  select_aliases keep_present candidates d key
  = Return (List.filter
              (fun alias => if keep_present then text_in alias live
                            else negb (text_in alias live))
              candidates).
Proof.
  intros Hget. unfold select_aliases. rewrite Hget.
  destruct candidates; reflexivity.
Qed.

Lemma none_still_missing_iff (candidates : list (option string))
    (live : list string) :
  Nat.eqb (List.length
             (List.filter (fun alias => negb (text_in alias live)) candidates)) 0
  = true
  <-> List.Forall (fun alias => present_in alias live) candidates.
Proof.
  rewrite filter_length_0_iff. apply Forall_iff. intros alias.
  rewrite negb_false_iff. apply text_in_true_iff.
Qed.

Lemma none_still_existing_iff (candidates : list (option string))
    (live : list string) :
  Nat.eqb (List.length
             (List.filter (fun alias => text_in alias live) candidates)) 0
  = true
  <-> List.Forall (fun alias => ~ present_in alias live) candidates.
Proof.
  rewrite filter_length_0_iff. apply Forall_iff. intros alias.
  apply text_in_false_iff.
Qed.

(** What [should_patrol_alias_removals] returns once the item is loaded and
    the diff has no added entry. *)
Lemma alias_removals_loaded (w : World) (qid key : string) (diff : AliasDiff) :
  add diff = [] ->
  exists_ (pwb_ItemPage w qid) = Return true ->
  isRedirectPage (pwb_ItemPage w qid) = false ->
  should_patrol_alias_removals w qid key (Some diff)
  = Return match aliases (pwb_ItemPage w qid) !! key with
           | Some live =>
               Nat.eqb (List.length
                          (List.filter (fun alias => negb (text_in alias live))
                                       (remove diff))) 0
           | None => false
           end.
Proof.
  intros Hadd Hex Hred. unfold should_patrol_alias_removals.
  rewrite Hadd. cbn [List.length Nat.ltb Nat.leb]. settle_guards.
  destruct (aliases (pwb_ItemPage w qid) !! key) as [live|] eqn:Hget.
  - rewrite (truthy_of_lookup _ _ _ Hget). cbn [negb].
    unfold PyDict.contains. rewrite Hget. cbn [negb].
    rewrite (select_aliases_loaded false _ _ _ _ Hget). cbn [bind].
    destruct (Nat.eqb _ 0); reflexivity.
  - destruct (PyDict.truthy _); cbn [negb]; [|reflexivity].
    unfold PyDict.contains. rewrite Hget. reflexivity.
Qed.

(** C2, as the code has it.  With a diff that carries an added entry the
    alias-removal predicate denies.  Otherwise, for a subject that exists and
    is not a redirect, it returns a verdict, and approves if and only if the
    item has an alias entry for the language of the intent and every alias of
    the diff's removed sequence is present in it again. *)
Theorem alias_removal_decision :
  forall (w : World) (qid key : string) (diff : AliasDiff),
    (add diff <> [] ->
     should_patrol_alias_removals w qid key (Some diff) = Return false) /\
    (add diff = [] ->
     exists_ (pwb_ItemPage w qid) = Return true ->
     isRedirectPage (pwb_ItemPage w qid) = false ->
     (exists verdict,
        should_patrol_alias_removals w qid key (Some diff) = Return verdict) /\
     (should_patrol_alias_removals w qid key (Some diff) = Return true
      <-> exists live,
            aliases (pwb_ItemPage w qid) !! key = Some live /\
            List.Forall (fun alias => present_in alias live) (remove diff))).
Proof.
  intros w qid key diff. split.
  - intros Hadd. unfold should_patrol_alias_removals.
    destruct (add diff); [congruence | reflexivity].
  - intros Hadd Hex Hred.
    rewrite (alias_removals_loaded w qid key diff Hadd Hex Hred).
    split; [eauto|].
    destruct (aliases (pwb_ItemPage w qid) !! key) as [live|].
    + split.
      * intros [= H]. exists live. split; [reflexivity|].
        apply none_still_missing_iff. assumption.
      * intros (live' & [= <-] & H). f_equal.
        apply none_still_missing_iff. assumption.
    + split; [discriminate | intros (live & Hlive & _); discriminate].
Qed.

Lemma alias_removal_decision_witness :
  should_patrol_alias_removals (Samples.aliased "en" ["X"; "Y"]) "Q7" "en"
    (Some (Samples.diff_of [] ["X"])) = Return true /\
  should_patrol_alias_removals (Samples.aliased "en" ["X"; "Y"]) "Q7" "en"
    (Some (Samples.diff_of ["Z"] ["X"])) = Return false.
Proof.
  split.
  - apply (alias_removal_decision (Samples.aliased "en" ["X"; "Y"]) "Q7" "en"
             (Samples.diff_of [] ["X"])); try reflexivity.
    exists ["X"; "Y"]. split; [reflexivity|].
    repeat constructor. exists "X". split; [reflexivity | left; reflexivity].
  - apply (alias_removal_decision (Samples.aliased "en" ["X"; "Y"]) "Q7" "en"
             (Samples.diff_of ["Z"] ["X"])). discriminate.
Defined.

(** C2 as stated fails in both directions: a removed alias that is still
    absent does not lead to approval, and one that has been added again
    does. *)
Lemma alias_removal_absent_is_denied :
  exists_ (pwb_ItemPage (Samples.aliased "en" ["Y"]) "Q7") = Return true /\
  isRedirectPage (pwb_ItemPage (Samples.aliased "en" ["Y"]) "Q7") = false /\
  aliases (pwb_ItemPage (Samples.aliased "en" ["Y"]) "Q7") !! "en" = Some ["Y"] /\
  add (Samples.diff_of [] ["X"]) = [] /\
  List.Forall (fun alias => ~ present_in alias ["Y"])
    (remove (Samples.diff_of [] ["X"])) /\
  should_patrol_alias_removals (Samples.aliased "en" ["Y"]) "Q7" "en"
    (Some (Samples.diff_of [] ["X"])) = Return false /\
  ~ List.Forall (fun alias => ~ present_in alias ["X"])
      (remove (Samples.diff_of [] ["X"])) /\
  should_patrol_alias_removals (Samples.aliased "en" ["X"]) "Q7" "en"
    (Some (Samples.diff_of [] ["X"])) = Return true.
Proof.
  repeat split.
  - repeat constructor. intros (s & [= <-] & [H|[]]). discriminate.
  - intros H. inversion H as [|? ? Habs]; subst. apply Habs.
    exists "X". split; [reflexivity | left; reflexivity].
Qed.

Lemma text_in_nil (alias : option string) : text_in alias [] = false.
Proof. destruct alias; reflexivity. Qed.

Lemma filter_text_in_nil (candidates : list (option string)) :
  List.filter (fun alias => text_in alias []) candidates = [].
Proof.
  induction candidates as [|x l IH]; [reflexivity|].
  cbn [List.filter]. rewrite text_in_nil. exact IH.
Qed.

(** What [should_patrol_alias_modifications] returns once the item is
    loaded. *)
Lemma alias_modifications_loaded (w : World) (qid key : string)
    (diff : AliasDiff) :
  exists_ (pwb_ItemPage w qid) = Return true ->
  isRedirectPage (pwb_ItemPage w qid) = false ->
  should_patrol_alias_modifications w qid key (Some diff)
  = Return
      (Nat.eqb (List.length
                  (List.filter
                     (fun alias =>
                        negb (text_in alias (live_aliases (pwb_ItemPage w qid) key)))
                     (remove diff))) 0
       && Nat.eqb (List.length
                     (List.filter
                        (fun alias =>
                           text_in alias (live_aliases (pwb_ItemPage w qid) key))
                        (add diff))) 0).
Proof.
  intros Hex Hred. unfold should_patrol_alias_modifications, live_aliases.
  settle_guards.
  destruct (aliases (pwb_ItemPage w qid) !! key) as [live|] eqn:Hget.
  - rewrite (truthy_of_lookup _ _ _ Hget).
    unfold PyDict.contains. rewrite Hget. cbn [negb andb orb].
    rewrite !andb_false_r.
    rewrite !(select_aliases_loaded _ _ _ _ _ Hget). cbn [bind].
    destruct (_ && _); reflexivity.
  - unfold PyDict.contains. rewrite Hget. cbn [negb]. rewrite orb_true_r.
    rewrite filter_text_in_nil.
    destruct (remove diff) as [|x rest].
    + reflexivity.
    + cbn [List.length Nat.ltb Nat.leb andb List.filter].
      rewrite text_in_nil. cbn [negb List.length Nat.eqb andb].
      destruct (PyDict.truthy _); reflexivity.
Qed.

(** C3, as the code has it.  For a non-null diff and a subject that exists
    and is not a redirect, the alias set/update predicate returns a verdict,
    and approves if and only if every alias of the diff's removed sequence is
    present again among the item's aliases in the language of the intent and
    no alias of the diff's added sequence is present there any more. *)
Theorem alias_modification_decision :
  forall (w : World) (qid key : string) (diff : AliasDiff),
    exists_ (pwb_ItemPage w qid) = Return true ->
    isRedirectPage (pwb_ItemPage w qid) = false ->
    (exists verdict,
       should_patrol_alias_modifications w qid key (Some diff) = Return verdict) /\
    (should_patrol_alias_modifications w qid key (Some diff) = Return true
     <-> List.Forall
           (fun alias => present_in alias (live_aliases (pwb_ItemPage w qid) key))
           (remove diff)
         /\ List.Forall
              (fun alias => ~ present_in alias (live_aliases (pwb_ItemPage w qid) key))
              (add diff)).
Proof.
  intros w qid key diff Hex Hred.
  rewrite (alias_modifications_loaded w qid key diff Hex Hred).
  split; [eauto|].
  rewrite <- none_still_missing_iff, <- none_still_existing_iff.
  rewrite <- andb_true_iff. split; congruence.
Qed.

Lemma alias_modification_decision_witness :
  should_patrol_alias_modifications (Samples.aliased "en" ["X"]) "Q7" "en"
    (Some (Samples.diff_of ["Z"] ["X"])) = Return true.
Proof.
  apply (alias_modification_decision (Samples.aliased "en" ["X"]) "Q7" "en"
           (Samples.diff_of ["Z"] ["X"]) eq_refl eq_refl).
  split.
  - repeat constructor. exists "X". split; [reflexivity | left; reflexivity].
  - repeat constructor. intros (s & [= <-] & [H|[]]). discriminate.
Defined.

(** C3 as stated fails: with the removed alias still absent and nothing
    added the predicate denies, and it approves once the removed alias is
    back. *)
Lemma alias_modification_absent_is_denied :
  exists_ (pwb_ItemPage Samples.no_aliases "Q7") = Return true /\
  isRedirectPage (pwb_ItemPage Samples.no_aliases "Q7") = false /\
  live_aliases (pwb_ItemPage Samples.no_aliases "Q7") "en" = [] /\
  List.Forall (fun alias => ~ present_in alias [])
    (remove (Samples.diff_of [] ["X"])) /\
  List.Forall (fun alias => ~ present_in alias [])
    (add (Samples.diff_of [] ["X"])) /\
  should_patrol_alias_modifications Samples.no_aliases "Q7" "en"
    (Some (Samples.diff_of [] ["X"])) = Return false /\
  live_aliases (pwb_ItemPage (Samples.aliased "en" ["X"]) "Q7") "en" = ["X"] /\
  ~ List.Forall (fun alias => ~ present_in alias ["X"])
      (remove (Samples.diff_of [] ["X"])) /\
  should_patrol_alias_modifications (Samples.aliased "en" ["X"]) "Q7" "en"
    (Some (Samples.diff_of [] ["X"])) = Return true.
Proof.
  repeat split.
  - repeat constructor. intros (s & _ & []).
  - constructor.
  - intros H. inversion H as [|? ? Habs]; subst. apply Habs.
    exists "X". split; [reflexivity | left; reflexivity].
Qed.

(** What [should_patrol_alias_removals] returns for a diff with no entry at
    all, on a subject that exists. *)
Lemma alias_removals_empty_diff (w : World) (qid key : string) :
  exists_ (pwb_ItemPage w qid) = Return true ->
  should_patrol_alias_removals w qid key (Some {| add := []; remove := [] |})
  = Return (isRedirectPage (pwb_ItemPage w qid)
            || PyDict.contains key (aliases (pwb_ItemPage w qid))).
Proof.
  intros Hex.
  destruct (isRedirectPage (pwb_ItemPage w qid)) eqn:Hred.
  - unfold should_patrol_alias_removals.
    cbn [add List.length Nat.ltb Nat.leb]. settle_guards. reflexivity.
  - rewrite (alias_removals_loaded w qid key {| add := []; remove := [] |}
               eq_refl Hex Hred).
    unfold PyDict.contains. cbn [orb remove List.filter List.length Nat.eqb].
    destruct (aliases (pwb_ItemPage w qid) !! key); reflexivity.
Qed.

(** C10, as the code has it.  For a diff whose added and removed sequences
    are both empty and a subject that exists, the alias-removal predicate
    approves when the subject is a redirect or its alias dict has an entry
    for the language of the intent (be the entry empty or not), and denies
    when the subject is not a redirect and the alias dict has no entry for
    the language; with a value of [None] it denies in every state. *)
Theorem alias_removal_empty_diff_decision :
  forall (w : World) (qid key : string),
    exists_ (pwb_ItemPage w qid) = Return true ->
    (isRedirectPage (pwb_ItemPage w qid) = true \/
     is_Some (aliases (pwb_ItemPage w qid) !! key) ->
     should_patrol_alias_removals w qid key (Some {| add := []; remove := [] |})
     = Return true) /\
    (isRedirectPage (pwb_ItemPage w qid) = false ->
     aliases (pwb_ItemPage w qid) !! key = None ->
     should_patrol_alias_removals w qid key (Some {| add := []; remove := [] |})
     = Return false) /\
    should_patrol_alias_removals w qid key None = Return false.
Proof.
  intros w qid key Hex.
  rewrite (alias_removals_empty_diff w qid key Hex).
  split; [|split; [|reflexivity]].
  - intros [Hred|Hsome].
    + rewrite Hred. reflexivity.
    + apply contains_true_iff in Hsome. rewrite Hsome, orb_true_r. reflexivity.
  - intros Hred Hnone. rewrite Hred. unfold PyDict.contains. rewrite Hnone.
    reflexivity.
Qed.

Lemma alias_removal_empty_diff_decision_witness :
  should_patrol_alias_removals (Samples.aliased "en" ["X"]) "Q7" "en"
    (Some {| add := []; remove := [] |}) = Return true /\
  should_patrol_alias_removals (Samples.aliased "en" ["X"]) "Q7" "de"
    (Some {| add := []; remove := [] |}) = Return false.
Proof.
  split.
  - apply (alias_removal_empty_diff_decision (Samples.aliased "en" ["X"]) "Q7" "en"
             eq_refl).
    right. exists ["X"]. reflexivity.
  - apply (alias_removal_empty_diff_decision (Samples.aliased "en" ["X"]) "Q7" "de"
             eq_refl); reflexivity.
Defined.

(** C10 as stated fails: an item that exists, is not a redirect and has an
    alias entry without any alias in the language of the intent has no alias
    in that language, and the predicate approves the empty diff. *)
Lemma alias_removal_empty_entry_approved :
  exists_ (pwb_ItemPage (Samples.aliased "en" []) "Q7") = Return true /\
  isRedirectPage (pwb_ItemPage (Samples.aliased "en" []) "Q7") = false /\
  live_aliases (pwb_ItemPage (Samples.aliased "en" []) "Q7") "en" = [] /\
  should_patrol_alias_removals (Samples.aliased "en" []) "Q7" "en"
    (Some {| add := []; remove := [] |}) = Return true.
Proof. repeat split. Qed.

(** ** Splitting and joining *)

Lemma string_ind2 (P : string -> Prop) :
  P EmptyString ->
  (forall c, P (String c EmptyString)) ->
  (forall c c' s, P s -> P (String c' s) -> P (String c (String c' s))) ->
  forall s, P s.
Proof.
  intros H0 H1 H2.
  assert (Hboth : forall s, P s /\ forall c, P (String c s)).
  { induction s as [|c' s [IHs IHc]].
    - split; [exact H0 | exact H1].
    - split; [apply IHc|]. intros c. apply H2; [exact IHs | apply IHc]. }
  intros s. apply Hboth.
Qed.

Lemma cons_head_not_nil (c : ascii) (parts : list string) :
  PyStr.cons_head c parts <> [].
Proof. destruct parts; discriminate. Qed.

Lemma split2_not_nil (a b : ascii) (s : string) : PyStr.split2 a b s <> [].
Proof.
  destruct s as [|c [|c' s]]; cbn [PyStr.split2]; try discriminate.
  destruct (_ && _); [discriminate | apply cons_head_not_nil].
Qed.

Lemma join_cons_head (sep : string) (c : ascii) (parts : list string) :
  parts <> [] ->
  PyStr.join sep (PyStr.cons_head c parts) = String c (PyStr.join sep parts).
Proof.
  intros Hne. destruct parts as [|h [|h' t]]; [congruence | reflexivity | reflexivity].
Qed.

Lemma cons_head_app (c : ascii) (l1 l2 : list string) :
  l1 <> [] -> PyStr.cons_head c (l1 ++ l2) = PyStr.cons_head c l1 ++ l2.
Proof. intros Hne. destruct l1; [congruence | reflexivity]. Qed.

Lemma split2_step (a b c c' : ascii) (s : string) :
  PyStr.split2 a b (String c (String c' s))
  = if Ascii.eqb c a && Ascii.eqb c' b
    then EmptyString :: PyStr.split2 a b s
    else PyStr.cons_head c (PyStr.split2 a b (String c' s)).
Proof. reflexivity. Qed.

(** Joining the pieces of a split with the separator gives the string back. *)
Lemma join_split2 (a b : ascii) (s : string) :
  PyStr.join (String a (String b EmptyString)) (PyStr.split2 a b s) = s.
Proof.
  induction s as [|c|c c' s IHs IHc] using string_ind2; [reflexivity | reflexivity|].
  rewrite split2_step. destruct (Ascii.eqb c a && Ascii.eqb c' b) eqn:Hsep.
  - apply andb_true_iff in Hsep. destruct Hsep as [Ha Hb].
    apply Ascii.eqb_eq in Ha. apply Ascii.eqb_eq in Hb. subst c c'.
    pose proof (split2_not_nil a b s) as Hne.
    unfold PyStr.join in *. destruct (PyStr.split2 a b s) as [|h t]; [congruence|].
    set (sep := String a (String b EmptyString)) in *.
    change (String.concat sep (EmptyString :: h :: t))
      with (EmptyString +:+ sep +:+ String.concat sep (h :: t)).
    rewrite IHs. reflexivity.
  - rewrite join_cons_head by apply split2_not_nil. f_equal. exact IHc.
Qed.

Lemma append_nil_l (s : string) : EmptyString +:+ s = s.
Proof. reflexivity. Qed.

Lemma append_cons (c : ascii) (s t : string) :
  String c s +:+ t = String c (s +:+ t).
Proof. reflexivity. Qed.

Lemma append_assoc (s t u : string) : (s +:+ t) +:+ u = s +:+ (t +:+ u).
Proof.
  induction s as [|c s IH]; [reflexivity|].
  rewrite !append_cons. f_equal. exact IH.
Qed.

(** A separator put between two strings cuts there, provided its two
    characters differ. *)
Lemma split2_app (a b : ascii) (p s : string) :
  a <> b ->
  PyStr.split2 a b (p +:+ String a (String b s))
  = PyStr.split2 a b p ++ PyStr.split2 a b s.
Proof.
  intros Hab.
  induction p as [|c|c c' p IHp IHc] using string_ind2.
  - rewrite append_nil_l, split2_step, !Ascii.eqb_refl. reflexivity.
  - rewrite append_cons, append_nil_l, split2_step.
    replace (Ascii.eqb c a && Ascii.eqb a b) with false.
    + rewrite split2_step, !Ascii.eqb_refl. reflexivity.
    + symmetry. apply andb_false_iff. right. apply Ascii.eqb_neq. exact Hab.
  - rewrite !append_cons, !split2_step. rewrite append_cons in IHc.
    destruct (Ascii.eqb c a && Ascii.eqb c' b).
    + rewrite IHp. reflexivity.
    + rewrite IHc. apply cons_head_app. apply split2_not_nil.
Qed.

Lemma contains_app (sub p q : string) :
  String.prefix sub q = true -> PyStr.contains sub (p +:+ q) = true.
Proof.
  intros Hq. induction p as [|c p IH].
  - rewrite append_nil_l. destruct q; cbn [PyStr.contains]; rewrite Hq; reflexivity.
  - rewrite append_cons. cbn [PyStr.contains]. rewrite IH. apply orb_true_r.
Qed.

Lemma join_snoc (sep : string) (parts : list string) (x : string) :
  parts <> [] ->
  PyStr.join sep (parts ++ [x]) = PyStr.join sep parts +:+ sep +:+ x.
Proof.
  intros Hne. unfold PyStr.join.
  induction parts as [|h t IH]; [congruence|].
  destruct t as [|h' t'].
  - reflexivity.
  - change (String.concat sep ((h :: h' :: t') ++ [x]))
      with (h +:+ sep +:+ String.concat sep ((h' :: t') ++ [x])).
    rewrite IH by discriminate.
    change (String.concat sep (h :: h' :: t'))
      with (h +:+ sep +:+ String.concat sep (h' :: t')).
    rewrite !append_assoc. reflexivity.
Qed.

Lemma in_appendices_true_iff (x : string) :
  in_appendices x = true <-> In x appendices.
Proof.
  unfold in_appendices. rewrite existsb_exists. split.
  - intros (y & Hin & Heq). apply String.eqb_eq in Heq. subst y. exact Hin.
  - intros Hin. exists x. split; [exact Hin | apply String.eqb_refl].
Qed.

(** No listed suffix holds a comma, so none is cut by the split. *)
Lemma appendix_facts (s : string) :
  In s appendices ->
  PyStr.contains "," s = false /\ PyStr.split2 "," " " s = [s].
Proof.
  intros Hin. cbv [appendices In] in Hin.
  destruct Hin as [<-|[<-|[<-|[]]]]; split; vm_compute; reflexivity.
Qed.

(** ** Tidying a description *)

Lemma tidy_no_comma (d : string) :
  PyStr.contains "," d = false -> tidy_description d = d.
Proof. intros H. unfold tidy_description. rewrite H. reflexivity. Qed.

Lemma tidy_unlisted (d : string) :
  in_appendices (List.last (PyStr.split2 "," " " d) EmptyString) = false ->
  tidy_description d = d.
Proof.
  intros H. unfold tidy_description. rewrite H.
  destruct (PyStr.contains "," d); reflexivity.
Qed.

Lemma tidy_listed (d : string) :
  PyStr.contains "," d = true ->
  in_appendices (List.last (PyStr.split2 "," " " d) EmptyString) = true ->
  tidy_description d
  = PyStr.join ", " (List.removelast (PyStr.split2 "," " " d)).
Proof. intros Hc Hl. unfold tidy_description. rewrite Hc, Hl. reflexivity. Qed.

(** A description that ends in [", "] and a listed suffix has more than one
    piece, and the pieces before the last are those of what precedes. *)
Lemma listed_suffix_split (d : string) :
  PyStr.contains "," d = true ->
  in_appendices (List.last (PyStr.split2 "," " " d) EmptyString) = true ->
  d = PyStr.join ", " (List.removelast (PyStr.split2 "," " " d))
      +:+ ", " +:+ List.last (PyStr.split2 "," " " d) EmptyString.
Proof.
  intros Hc Hl.
  pose proof (join_split2 "," " " d) as Hjoin.
  pose proof (split2_not_nil "," " " d) as Hne.
  rewrite (List.app_removelast_last EmptyString Hne) in Hjoin.
  destruct (List.removelast (PyStr.split2 "," " " d)) as [|h t] eqn:Hinit.
  - exfalso. cbn [app PyStr.join String.concat] in Hjoin.
    rewrite Hjoin in Hl. apply in_appendices_true_iff in Hl.
    apply appendix_facts in Hl. destruct Hl as [Hno _]. congruence.
  - rewrite join_snoc in Hjoin by discriminate. symmetry. exact Hjoin.
Qed.

Lemma tidy_strips (p s : string) :
  In s appendices -> tidy_description (p +:+ ", " +:+ s) = p.
Proof.
  intros Hin. destruct (appendix_facts s Hin) as [_ Hsplit].
  change (", " +:+ s) with (String "," (String " " s)).
  unfold tidy_description.
  rewrite contains_app by reflexivity. cbn [negb].
  rewrite split2_app by discriminate. rewrite Hsplit.
  rewrite List.last_last, List.removelast_last.
  rewrite (proj2 (in_appendices_true_iff s) Hin). cbn [negb].
  apply join_split2.
Qed.

(** C7. [tidy_description] leaves a value without a comma unchanged, and one
    whose last piece after splitting on [", "] is not a listed suffix; when
    the last piece is a listed suffix it drops that piece and the separator
    before it, so that a value [p ++ ", " ++ s] with [s] listed becomes [p].
    The description addition/modification predicate is the label one, read on
    the descriptions, at the tidied value: for a subject that exists and is
    not a redirect it approves if and only if the item has no description,
    or none in the language, or one that differs from the tidied value. *)
Theorem description_modification_normalizes :
  (forall d : string,
     PyStr.contains "," d = false -> tidy_description d = d) /\
  (forall d : string,
     ~ In (List.last (PyStr.split2 "," " " d) EmptyString) appendices ->
     tidy_description d = d) /\
  (forall d : string,
     PyStr.contains "," d = true ->
     In (List.last (PyStr.split2 "," " " d) EmptyString) appendices ->
     tidy_description d
     = PyStr.join ", " (List.removelast (PyStr.split2 "," " " d)) /\
     d = tidy_description d +:+ ", "
         +:+ List.last (PyStr.split2 "," " " d) EmptyString) /\
  (forall p s : string,
     In s appendices -> tidy_description (p +:+ ", " +:+ s) = p) /\
  (forall (w : World) (qid key value : string),
     should_patrol_description_modification w qid key value
     = should_patrol_label_modification (descriptions_as_labels w) qid key
         (tidy_description value)) /\
  (forall (w : World) (qid key value : string),
     exists_ (pwb_ItemPage w qid) = Return true ->
     isRedirectPage (pwb_ItemPage w qid) = false ->
     (should_patrol_description_modification w qid key value = Return true
      <-> superseded (descriptions (pwb_ItemPage w qid)) key
            (tidy_description value))).
Proof.
  split; [exact tidy_no_comma|].
  split.
  { intros d Hnot. apply tidy_unlisted.
    destruct (in_appendices _) eqn:Hl; [|reflexivity].
    apply in_appendices_true_iff in Hl. contradiction. }
  split.
  { intros d Hc Hin. apply in_appendices_true_iff in Hin.
    rewrite (tidy_listed d Hc Hin). split; [reflexivity|].
    apply listed_suffix_split; assumption. }
  split; [exact tidy_strips|].
  split; [reflexivity|].
  intros w qid key value Hex Hred.
  rewrite (description_modification_loaded w qid key value Hex Hred).
  rewrite <- modification_checks_true_iff. split; congruence.
Qed.

Lemma description_modification_normalizes_witness :
  tidy_description "town in Spain, #suggestededit-add 1.0" = "town in Spain" /\
  tidy_description "town, Spain" = "town, Spain" /\
  should_patrol_description_modification (Samples.labelled "en" "village")
    "Q7" "en" "town in Spain, #suggestededit-add 1.0" = Return true.
Proof.
  destruct description_modification_normalizes
    as (Hnone & Hunlisted & Hlisted & Hstrip & Hshape & Hloaded).
  pose proof (Hstrip "town in Spain" "#suggestededit-add 1.0"
                (or_introl eq_refl)) as Htidy.
  change ("town in Spain" +:+ ", " +:+ "#suggestededit-add 1.0")
    with "town in Spain, #suggestededit-add 1.0" in Htidy.
  split; [exact Htidy | split].
  - apply Hunlisted. vm_compute. intros [H|[H|[H|[]]]]; discriminate.
  - apply (Hloaded (Samples.labelled "en" "village") "Q7" "en"
             "town in Spain, #suggestededit-add 1.0" eq_refl eq_refl).
    right. right. exists "village". split; [reflexivity|].
    rewrite Htidy. discriminate.
Defined.

(** ** The scraper has one outcome per string *)

Lemma cells_run_total (i : nat) (td_tags : list Element) (st : ScrapeState) :
  cells_run i st td_tags (scrape_cells i st td_tags).
Proof.
  revert st. induction td_tags as [|td_tag rest IH]; intros st.
  - apply cells_done.
  - cbn [scrape_cells]. destruct (scrape_cell i st td_tag) as [st'|e] eqn:Hcell.
    + cbn [bind]. eapply cells_next; [exact Hcell | apply IH].
    + cbn [bind]. apply cells_raise. exact Hcell.
Qed.

Lemma rows_run_total (tr_tags : list Element) (i : nat) (st : ScrapeState) :
  rows_run i st tr_tags (scrape_rows i st tr_tags).
Proof.
  revert i st. induction tr_tags as [|tr_tag rest IH]; intros i st.
  - apply rows_done.
  - cbn [scrape_rows].
    pose proof (cells_run_total i (findall "td" tr_tag) st) as Hcells.
    destruct (scrape_cells i st (findall "td" tr_tag)) as [st'|e].
    + cbn [bind]. eapply rows_next; [exact Hcells | apply IH].
    + cbn [bind]. apply rows_raise. exact Hcells.
Qed.

(** Every string has a run, the one that the function computes. *)
Lemma scrape_run_total (fromstring : string -> result (option Element))
    (diff : string) :
  scrape_run fromstring diff (scrape_aliases_from_diff fromstring diff).
Proof.
  unfold scrape_aliases_from_diff.
  destruct (Nat.eqb (String.length diff) 0) eqn:Hlen.
  - apply run_empty. apply Nat.eqb_eq. exact Hlen.
  - apply Nat.eqb_neq in Hlen.
    destruct (fromstring diff) as [[tree|]|e] eqn:Hparse; cbn [bind].
    + pose proof (rows_run_total (xpath_tr tree) 1 scrape_init) as Hrows.
      destruct (scrape_rows 1 scrape_init (xpath_tr tree)) as [st|e]; cbn [bind].
      * eapply run_rows; eassumption.
      * eapply run_rows_raise; eassumption.
    + apply run_no_tree; assumption.
    + apply run_parser_raises; assumption.
Qed.

(** The inner loop has one outcome from a given state. *)
Lemma cells_run_deterministic (i : nat) (st : ScrapeState)
    (td_tags : list Element) (r1 r2 : result ScrapeState) :
  cells_run i st td_tags r1 -> cells_run i st td_tags r2 -> r1 = r2.
Proof.
  intros H1. revert r2.
  induction H1 as [st|st st' td_tag rest r Hcell Hrest IH|st td_tag rest e Hcell];
    intros r2 H2; inversion H2; subst.
  - reflexivity.
  - apply IH. congruence.
  - congruence.
  - congruence.
  - congruence.
Qed.

(** So has the outer loop. *)
Lemma rows_run_deterministic (i : nat) (st : ScrapeState)
    (tr_tags : list Element) (r1 r2 : result ScrapeState) :
  rows_run i st tr_tags r1 -> rows_run i st tr_tags r2 -> r1 = r2.
Proof.
  intros H1. revert r2.
  induction H1 as [i st|i st st' tr_tag rest r Hcells Hrest IH
                  |i st tr_tag rest e Hcells];
    intros r2 H2; inversion H2; subst.
  - reflexivity.
  - apply IH.
    match goal with
    | H : cells_run _ _ _ (Return _) |- _ =>
        pose proof (cells_run_deterministic _ _ _ _ _ Hcells H) as Heq
    end.
    injection Heq as ->. assumption.
  - match goal with
    | H : cells_run _ _ _ (Raise _) |- _ =>
        pose proof (cells_run_deterministic _ _ _ _ _ Hcells H) as Heq
    end.
    discriminate Heq.
  - match goal with
    | H : cells_run _ _ _ (Return _) |- _ =>
        pose proof (cells_run_deterministic _ _ _ _ _ Hcells H) as Heq
    end.
    discriminate Heq.
  - match goal with
    | H : cells_run _ _ _ (Raise _) |- _ =>
        pose proof (cells_run_deterministic _ _ _ _ _ Hcells H) as Heq
    end.
    exact Heq.
Qed.

(** C8. Two runs of the scraper on the same string have the same outcome:
    when both return, the two dicts have the same added sequence and the same
    removed sequence, in the same order; when one raises, the other raises
    the same exception. *)
Theorem scrape_aliases_deterministic :
  forall (fromstring : string -> result (option Element)) (diff : string)
         (r1 r2 : result AliasDiff),
    scrape_run fromstring diff r1 ->
    scrape_run fromstring diff r2 ->
    r1 = r2 /\
    (forall d1 d2 : AliasDiff,
       r1 = Return d1 -> r2 = Return d2 ->
       add d1 = add d2 /\ remove d1 = remove d2).
Proof.
  intros fromstring diff r1 r2 H1 H2.
  assert (Heq : r1 = r2).
  { inversion H1; subst; inversion H2; subst; try congruence.
    all: match goal with
         | Ha : _ = Return (Some ?t1), Hb : _ = Return (Some ?t2) |- _ =>
             assert (t1 = t2) by congruence; subst
         end.
    all: match goal with
         | Ha : rows_run 1 scrape_init _ ?a, Hb : rows_run 1 scrape_init _ ?b |- _ =>
             pose proof (rows_run_deterministic _ _ _ _ _ Ha Hb) as Hsame
         end.
    all: congruence. }
  split; [exact Heq|].
  intros d1 d2 -> Hd2. rewrite Hd2 in Heq. injection Heq as ->. split; reflexivity.
Qed.

Lemma scrape_aliases_deterministic_witness :
  scrape_run Samples.parser Samples.alias_diff_html
    (Return (Samples.diff_of ["Y"] ["X"])) /\
  Return (Samples.diff_of ["Y"] ["X"])
  = scrape_aliases_from_diff Samples.parser Samples.alias_diff_html.
Proof.
  assert (Hrun : scrape_run Samples.parser Samples.alias_diff_html
                   (Return (Samples.diff_of ["Y"] ["X"]))).
  { apply (run_rows Samples.parser Samples.alias_diff_html Samples.alias_diff_tree
             {| process_table_cells := true;
                scraped := Samples.diff_of ["Y"] ["X"] |});
      [discriminate | reflexivity |].
    eapply rows_next.
    { eapply cells_next; [reflexivity | apply cells_done]. }
    eapply rows_next.
    { eapply cells_next; [reflexivity|].
      eapply cells_next; [reflexivity | apply cells_done]. }
    apply rows_done. }
  split; [exact Hrun|].
  apply (scrape_aliases_deterministic Samples.parser Samples.alias_diff_html
           _ _ Hrun (scrape_run_total Samples.parser Samples.alias_diff_html)).
Defined.

(** ** The summary patterns *)

Lemma strip_prefix_app (p s : string) : strip_prefix p (p +:+ s) = Some s.
Proof.
  induction p as [|c p IH]; [reflexivity|].
  rewrite append_cons. cbn [strip_prefix]. rewrite Ascii.eqb_refl. exact IH.
Qed.

Lemma strip_prefix_Some (p s r : string) :
  strip_prefix p s = Some r -> s = p +:+ r.
Proof.
  revert s. induction p as [|c p IH]; intros s H.
  - cbn in H. injection H as ->. reflexivity.
  - destruct s as [|b s]; [discriminate|]. cbn [strip_prefix] in H.
    destruct (Ascii.eqb c b) eqn:Hcb; [|discriminate].
    apply Ascii.eqb_eq in Hcb. subst b. rewrite append_cons. f_equal.
    apply IH. exact H.
Qed.

(** A run of characters of the class is taken whole when what follows does
    not start with a character of the class. *)
Lemma span_app (p : ascii -> bool) (run rest : string) :
  all_in p run = true ->
  match rest with EmptyString => True | String c _ => p c = false end ->
  span p (run +:+ rest) = (run, rest).
Proof.
  intros Hrun Hrest. induction run as [|c run IH].
  - rewrite append_nil_l. destruct rest as [|c rest]; [reflexivity|].
    cbn [span]. rewrite Hrest. reflexivity.
  - cbn [all_in] in Hrun. apply andb_true_iff in Hrun. destruct Hrun as [Hc Hrun].
    rewrite append_cons. cbn [span]. rewrite Hc, (IH Hrun). reflexivity.
Qed.

Lemma span_spec (p : ascii -> bool) (s : string) :
  s = fst (span p s) +:+ snd (span p s) /\ all_in p (fst (span p s)) = true.
Proof.
  induction s as [|c s [IHeq IHall]]; [split; reflexivity|].
  cbn [span]. destruct (p c) eqn:Hc; cbn [fst snd].
  - rewrite append_cons. split; [f_equal; exact IHeq|].
    cbn [all_in]. rewrite Hc. exact IHall.
  - split; reflexivity.
Qed.

Lemma to_end_line (value : string) :
  all_in not_newline value = true ->
  to_end value = Some value /\
  to_end (value +:+ String newline EmptyString) = Some value.
Proof.
  induction value as [|c value IH]; intros Hall; [split; reflexivity|].
  cbn [all_in] in Hall. apply andb_true_iff in Hall. destruct Hall as [Hc Hall].
  unfold not_newline in Hc. apply negb_true_iff in Hc.
  destruct (IH Hall) as [IH1 IH2].
  rewrite append_cons. cbn [to_end]. rewrite Hc, IH1, IH2. split; reflexivity.
Qed.

Lemma to_end_Some (s value : string) :
  to_end s = Some value ->
  (s = value \/ s = value +:+ String newline EmptyString) /\
  all_in not_newline value = true.
Proof.
  revert value. induction s as [|c s IH]; intros value H.
  - cbn in H. injection H as <-. split; [left|]; reflexivity.
  - cbn [to_end] in H. destruct (Ascii.eqb c newline) eqn:Hc.
    + apply Ascii.eqb_eq in Hc. subst c.
      destruct s; [|discriminate]. injection H as <-.
      split; [right|]; reflexivity.
    + destruct (to_end s) as [v|]; [|discriminate]. injection H as <-.
      destruct (IH v eq_refl) as [Hs Hall]. split.
      * destruct Hs as [->| ->]; [left | right]; reflexivity.
      * cbn [all_in]. unfold not_newline at 1. rewrite Hc. exact Hall.
Qed.

Lemma length_0_iff (s : string) :
  Nat.eqb (String.length s) 0 = true <-> s = EmptyString.
Proof. destruct s; split; intros H; try reflexivity; discriminate. Qed.

(** Neither the bar after the digits nor the space after the key is in the
    class that precedes it. *)
Lemma bars_not_digit (a : action) (s : string) :
  match bars a +:+ s with EmptyString => True | String c _ => is_digit c = false end.
Proof. destruct a; reflexivity. Qed.

Lemma space_not_key (a : action) (s : string) :
  match " */ " +:+ s with
  | EmptyString => True
  | String c _ => key_class a c = false
  end.
Proof. destruct a; reflexivity. Qed.

Lemma re_match_of_parts (a : action) (digits key rest value : string) :
  digits <> EmptyString ->
  all_in is_digit digits = true ->
  key <> EmptyString ->
  all_in (key_class a) key = true ->
  to_end rest = Some value ->
  re_match a ("/* " +:+ action_name a +:+ ":" +:+ digits +:+ bars a +:+ key
              +:+ " */ " +:+ rest)
  = Some (digits, key, value).
Proof.
  intros Hd Hdigits Hk Hkey Hrest. unfold re_match.
  replace ("/* " +:+ action_name a +:+ ":" +:+ digits +:+ bars a +:+ key
           +:+ " */ " +:+ rest)
    with (("/* " +:+ action_name a +:+ ":")
          +:+ digits +:+ bars a +:+ key +:+ " */ " +:+ rest)
    by (rewrite !append_assoc; reflexivity).
  rewrite strip_prefix_app.
  rewrite (span_app is_digit digits (bars a +:+ key +:+ " */ " +:+ rest)
             Hdigits (bars_not_digit a _)).
  cbn [fst snd].
  destruct (Nat.eqb (String.length digits) 0) eqn:Hlen;
    [apply length_0_iff in Hlen; contradiction|].
  rewrite strip_prefix_app.
  rewrite (span_app (key_class a) key (" */ " +:+ rest) Hkey
             (space_not_key a rest)).
  cbn [fst snd].
  destruct (Nat.eqb (String.length key) 0) eqn:Hlenk;
    [apply length_0_iff in Hlenk; contradiction|].
  rewrite strip_prefix_app, Hrest. reflexivity.
Qed.

(** X1. The pattern of an action reads back the summary that the wiki writes
    for it: from a summary made of a number, a key of the action's key class
    and a value without line feed, [re_match] returns exactly these three
    groups, also when a line feed ends the summary. *)
Theorem re_match_summary_of :
  forall (a : action) (digits key value : string),
    digits <> EmptyString ->
    all_in is_digit digits = true ->
    key <> EmptyString ->
    all_in (key_class a) key = true ->
    all_in not_newline value = true ->
    re_match a (summary_of a digits key value) = Some (digits, key, value) /\
    re_match a (summary_of a digits key value +:+ String newline EmptyString)
    = Some (digits, key, value).
Proof.
  intros a digits key value Hd Hdigits Hk Hkey Hvalue.
  destruct (to_end_line value Hvalue) as [Hplain Hfeed].
  unfold summary_of. split.
  - apply re_match_of_parts; assumption.
  - rewrite !append_assoc. apply re_match_of_parts; assumption.
Qed.

Lemma re_match_summary_of_witness :
  re_match wbsetlabel_set "/* wbsetlabel-set:1|en */ Douglas Adams"
  = Some ("1", "en", "Douglas Adams").
Proof.
  apply (re_match_summary_of wbsetlabel_set "1" "en" "Douglas Adams");
    try discriminate; reflexivity.
Defined.

(** X2. What [re_match] accepts is a summary of the action: the summary is
    the one written from the three groups, possibly with a line feed after
    it; the first group is a non-empty run of digits, the second a non-empty
    run of the action's key class, and the third holds no line feed. *)
Theorem re_match_shape :
  forall (a : action) (summary digits key value : string),
    re_match a summary = Some (digits, key, value) ->
    (summary = summary_of a digits key value \/
     summary = summary_of a digits key value +:+ String newline EmptyString) /\
    digits <> EmptyString /\ all_in is_digit digits = true /\
    key <> EmptyString /\ all_in (key_class a) key = true /\
    all_in not_newline value = true.
Proof.
  intros a summary digits key value H. unfold re_match in H.
  destruct (strip_prefix _ summary) as [after_action|] eqn:H1; [|discriminate].
  apply strip_prefix_Some in H1.
  destruct (span_spec is_digit after_action) as [Hsplit1 Hall1].
  destruct (Nat.eqb (String.length (fst (span is_digit after_action))) 0)
    eqn:Hlen1; [discriminate|].
  destruct (strip_prefix (bars a) _) as [after_bars|] eqn:H2; [|discriminate].
  apply strip_prefix_Some in H2.
  destruct (span_spec (key_class a) after_bars) as [Hsplit2 Hall2].
  destruct (Nat.eqb (String.length (fst (span (key_class a) after_bars))) 0)
    eqn:Hlen2; [discriminate|].
  destruct (strip_prefix " */ " _) as [after_key|] eqn:H3; [|discriminate].
  apply strip_prefix_Some in H3.
  destruct (to_end after_key) as [v|] eqn:H4; [|discriminate].
  injection H as Hd Hk Hv. subst v.
  apply to_end_Some in H4. destruct H4 as [Hshape Hvalue].
  rewrite Hd in *. rewrite Hk in *.
  assert (Hsum : summary
                 = "/* " +:+ action_name a +:+ ":" +:+ digits +:+ bars a
                   +:+ key +:+ " */ " +:+ after_key).
  { rewrite H1, Hsplit1, H2, Hsplit2, H3. rewrite !append_assoc. reflexivity. }
  split; [|repeat split; try assumption].
  - unfold summary_of. destruct Hshape as [->| ->]; [left; exact Hsum|].
    right. rewrite Hsum, !append_assoc. reflexivity.
  - intros ->. discriminate Hlen1.
  - intros ->. discriminate Hlen2.
Qed.

Lemma re_match_shape_witness :
  "/* clientsitelink-remove:1||enwiki */ Page A"
  = summary_of clientsitelink_remove "1" "enwiki" "Page A" \/
  "/* clientsitelink-remove:1||enwiki */ Page A"
  = summary_of clientsitelink_remove "1" "enwiki" "Page A"
    +:+ String newline EmptyString.
Proof.
  apply (re_match_shape clientsitelink_remove
           "/* clientsitelink-remove:1||enwiki */ Page A" "1" "enwiki" "Page A").
  reflexivity.
Defined.

(** ** More on the decision functions *)

Lemma equals_true_iff (d : gmap string string) (key value : string) :
  equals d key value = true <-> d !! key = Some value.
Proof.
  unfold equals. destruct (d !! key) as [current|].
  - rewrite String.eqb_eq. split; congruence.
  - split; discriminate.
Qed.

Lemma removal_checks (d : gmap string string) (key value : string) :
  (if negb (PyDict.truthy d) then Return false else
   if negb (PyDict.contains key d) then Return false else
   if equals d key value then Return true else Return false)
  = Return (equals d key value).
Proof.
  unfold equals, PyDict.contains.
  destruct (d !! key) as [current|] eqn:Hget.
  - rewrite (truthy_of_lookup _ _ _ Hget). cbn [negb].
    destruct (String.eqb current value); reflexivity.
  - destruct (PyDict.truthy d); reflexivity.
Qed.

(** X3. For a subject that exists and is not a redirect, the label removal
    predicate returns a verdict, and approves if and only if the item has the
    removed label again: a label in the language of the intent that equals
    the removed text. *)
Theorem label_removal_decision :
  forall (w : World) (qid key value : string),
    exists_ (pwb_ItemPage w qid) = Return true ->
    isRedirectPage (pwb_ItemPage w qid) = false ->
    (exists verdict, should_patrol_label_removal w qid key value = Return verdict) /\
    (should_patrol_label_removal w qid key value = Return true
     <-> labels (pwb_ItemPage w qid) !! key = Some value).
Proof.
  intros w qid key value Hex Hred. unfold should_patrol_label_removal.
  settle_guards. rewrite removal_checks. split; [eauto|].
  rewrite <- equals_true_iff. split; congruence.
Qed.

Lemma label_removal_decision_witness :
  should_patrol_label_removal (Samples.labelled "en" "old") "Q7" "en" "old"
  = Return true.
Proof.
  apply (label_removal_decision (Samples.labelled "en" "old") "Q7" "en" "old"
           eq_refl eq_refl).
  reflexivity.
Defined.

(** X4. For a subject that exists and is not a redirect, the description
    removal predicate returns a verdict, and approves if and only if the item
    has the removed description again in the language of the intent; the
    text is compared as it stands, no suffix is dropped from it. *)
Theorem description_removal_decision :
  forall (w : World) (qid key value : string),
    exists_ (pwb_ItemPage w qid) = Return true ->
    isRedirectPage (pwb_ItemPage w qid) = false ->
    (exists verdict,
       should_patrol_description_removal w qid key value = Return verdict) /\
    (should_patrol_description_removal w qid key value = Return true
     <-> descriptions (pwb_ItemPage w qid) !! key = Some value).
Proof.
  intros w qid key value Hex Hred. unfold should_patrol_description_removal.
  settle_guards. rewrite removal_checks. split; [eauto|].
  rewrite <- equals_true_iff. split; congruence.
Qed.

Lemma description_removal_decision_witness :
  should_patrol_description_removal (Samples.labelled "en" "old") "Q7" "en" "old"
  = Return true.
Proof.
  apply (description_removal_decision (Samples.labelled "en" "old") "Q7" "en"
           "old" eq_refl eq_refl).
  reflexivity.
Defined.

(** X5. A [ValueError] raised by [exists()] makes the label removal predicate
    return [False]; the other five predicates on a text value do not handle
    it and raise it. *)
Theorem exists_value_error :
  forall (w : World) (qid key value : string),
    exists_ (pwb_ItemPage w qid) = Raise ValueError ->
    should_patrol_label_removal w qid key value = Return false /\
    should_patrol_label_modification w qid key value = Raise ValueError /\
    should_patrol_description_removal w qid key value = Raise ValueError /\
    should_patrol_description_modification w qid key value = Raise ValueError /\
    should_patrol_sitelink_removal w qid key value = Raise ValueError /\
    should_patrol_sitelink_addition w qid key value = Raise ValueError.
Proof.
  intros w qid key value Hex. unfold_decisions.
  repeat split; rewrite Hex; reflexivity.
Qed.

Lemma exists_value_error_witness :
  should_patrol_label_removal
    {| pwb_ItemPage := fun _ =>
         {| exists_ := Raise ValueError; isRedirectPage := false;
            sitelinks := ∅; labels := ∅; descriptions := ∅; aliases := ∅ |};
       fromDBName := fun _ => Return "wikipedia:en";
       pwb_Page := fun _ _ _ => Return (Samples.page_of "Q7") |}
    "Q7" "en" "old" = Return false.
Proof.
  apply (exists_value_error
           {| pwb_ItemPage := fun _ =>
                {| exists_ := Raise ValueError; isRedirectPage := false;
                   sitelinks := ∅; labels := ∅; descriptions := ∅;
                   aliases := ∅ |};
              fromDBName := fun _ => Return "wikipedia:en";
              pwb_Page := fun _ _ _ => Return (Samples.page_of "Q7") |}
           "Q7" "en" "old" eq_refl).
Defined.

(** What [should_patrol_alias_additions] returns once the item is loaded and
    the diff has no removed entry. *)
Lemma alias_additions_loaded (w : World) (qid key : string) (diff : AliasDiff) :
  remove diff = [] ->
  exists_ (pwb_ItemPage w qid) = Return true ->
  isRedirectPage (pwb_ItemPage w qid) = false ->
  should_patrol_alias_additions w qid key (Some diff)
  = Return (Nat.eqb (List.length
                       (List.filter
                          (fun alias =>
                             text_in alias (live_aliases (pwb_ItemPage w qid) key))
                          (add diff))) 0).
Proof.
  intros Hrem Hex Hred. unfold should_patrol_alias_additions, live_aliases.
  rewrite Hrem. cbn [List.length Nat.ltb Nat.leb]. settle_guards.
  destruct (aliases (pwb_ItemPage w qid) !! key) as [live|] eqn:Hget.
  - rewrite (truthy_of_lookup _ _ _ Hget). cbn [negb].
    unfold PyDict.contains. rewrite Hget. cbn [negb].
    rewrite (select_aliases_loaded true _ _ _ _ Hget). cbn [bind].
    destruct (Nat.eqb _ 0); reflexivity.
  - rewrite filter_text_in_nil. cbn [List.length Nat.eqb].
    destruct (PyDict.truthy _); cbn [negb]; [|reflexivity].
    unfold PyDict.contains. rewrite Hget. reflexivity.
Qed.

(** X6. The alias addition predicate denies a diff that carries a removed
    entry, whatever the state of the wiki.  Otherwise, for a subject that
    exists and is not a redirect, it returns a verdict, and approves if and
    only if none of the added aliases is among the item's aliases in the
    language of the intent any more. *)
Theorem alias_addition_decision :
  forall (w : World) (qid key : string) (diff : AliasDiff),
    (remove diff <> [] ->
     should_patrol_alias_additions w qid key (Some diff) = Return false) /\
    (remove diff = [] ->
     exists_ (pwb_ItemPage w qid) = Return true ->
     isRedirectPage (pwb_ItemPage w qid) = false ->
     (exists verdict,
        should_patrol_alias_additions w qid key (Some diff) = Return verdict) /\
     (should_patrol_alias_additions w qid key (Some diff) = Return true
      <-> List.Forall
            (fun alias =>
               ~ present_in alias (live_aliases (pwb_ItemPage w qid) key))
            (add diff))).
Proof.
  intros w qid key diff. split.
  - intros Hrem. unfold should_patrol_alias_additions.
    destruct (remove diff); [congruence | reflexivity].
  - intros Hrem Hex Hred.
    rewrite (alias_additions_loaded w qid key diff Hrem Hex Hred).
    split; [eauto|].
    rewrite <- none_still_existing_iff. split; congruence.
Qed.

Lemma alias_addition_decision_witness :
  should_patrol_alias_additions (Samples.aliased "en" ["Y"]) "Q7" "en"
    (Some (Samples.diff_of ["X"] [])) = Return true /\
  should_patrol_alias_additions (Samples.aliased "en" ["Y"]) "Q7" "en"
    (Some (Samples.diff_of ["X"] ["Z"])) = Return false.
Proof.
  split.
  - apply (alias_addition_decision (Samples.aliased "en" ["Y"]) "Q7" "en"
             (Samples.diff_of ["X"] [])); try reflexivity.
    repeat constructor. intros (s & [= <-] & [H|[]]). discriminate.
  - apply (alias_addition_decision (Samples.aliased "en" ["Y"]) "Q7" "en"
             (Samples.diff_of ["X"] ["Z"])). discriminate.
Defined.

(** X7. On a diff without removed entry the alias set/update predicate
    decides as the alias addition predicate does, in every state of the
    wiki. *)
Theorem alias_modification_of_additions :
  forall (w : World) (qid key : string) (diff : AliasDiff),
    remove diff = [] ->
    should_patrol_alias_modifications w qid key (Some diff)
    = should_patrol_alias_additions w qid key (Some diff).
Proof.
  intros w qid key diff Hrem.
  unfold should_patrol_alias_modifications, should_patrol_alias_additions.
  rewrite Hrem. cbn [List.length Nat.ltb Nat.leb andb select_aliases].
  destruct (exists_ (pwb_ItemPage w qid)) as [[|]|e]; cbn [bind negb];
    [|reflexivity..].
  destruct (isRedirectPage (pwb_ItemPage w qid)); [reflexivity|].
  destruct (PyDict.truthy (aliases (pwb_ItemPage w qid))); cbn [negb orb];
    [|reflexivity].
  destruct (PyDict.contains key (aliases (pwb_ItemPage w qid))); cbn [negb];
    [|reflexivity].
  destruct (select_aliases true (add diff) _ key); reflexivity.
Qed.

Lemma alias_modification_of_additions_witness :
  should_patrol_alias_modifications (Samples.aliased "en" ["X"]) "Q7" "en"
    (Some (Samples.diff_of ["X"] []))
  = should_patrol_alias_additions (Samples.aliased "en" ["X"]) "Q7" "en"
      (Some (Samples.diff_of ["X"] [])).
Proof.
  apply (alias_modification_of_additions (Samples.aliased "en" ["X"]) "Q7" "en"
           (Samples.diff_of ["X"] [])).
  reflexivity.
Defined.

(** X8. On a diff with a removed entry and no added one the alias set/update
    predicate decides as the alias removal predicate does, in every state of
    the wiki. *)
Theorem alias_modification_of_removals :
  forall (w : World) (qid key : string) (diff : AliasDiff),
    add diff = [] ->
    remove diff <> [] ->
    should_patrol_alias_modifications w qid key (Some diff)
    = should_patrol_alias_removals w qid key (Some diff).
Proof.
  intros w qid key diff Hadd Hrem.
  unfold should_patrol_alias_modifications, should_patrol_alias_removals.
  rewrite Hadd. destruct (remove diff) as [|x rest] eqn:Hr; [congruence|].
  cbn [List.length Nat.ltb Nat.leb andb].
  destruct (exists_ (pwb_ItemPage w qid)) as [[|]|e]; cbn [bind negb];
    [|reflexivity..].
  destruct (isRedirectPage (pwb_ItemPage w qid)); [reflexivity|].
  destruct (PyDict.truthy (aliases (pwb_ItemPage w qid))); cbn [negb orb];
    [|reflexivity].
  destruct (PyDict.contains key (aliases (pwb_ItemPage w qid))); cbn [negb];
    [|reflexivity].
  destruct (select_aliases false (x :: rest) _ key) as [missing|e];
    cbn [bind select_aliases]; [|reflexivity].
  rewrite andb_true_r. reflexivity.
Qed.

Lemma alias_modification_of_removals_witness :
  should_patrol_alias_modifications (Samples.aliased "en" ["X"]) "Q7" "en"
    (Some (Samples.diff_of [] ["X"]))
  = should_patrol_alias_removals (Samples.aliased "en" ["X"]) "Q7" "en"
      (Some (Samples.diff_of [] ["X"])).
Proof.
  apply (alias_modification_of_removals (Samples.aliased "en" ["X"]) "Q7" "en"
           (Samples.diff_of [] ["X"])); [reflexivity | discriminate].
Defined.

(** The label, description and alias predicates return once [exists()] has
    answered. *)
Lemma text_predicates_return (w : World) (qid key value : string) (b : bool) :
  exists_ (pwb_ItemPage w qid) = Return b ->
  (exists v, should_patrol_label_removal w qid key value = Return v) /\
  (exists v, should_patrol_label_modification w qid key value = Return v) /\
  (exists v, should_patrol_description_removal w qid key value = Return v) /\
  (exists v, should_patrol_description_modification w qid key value = Return v).
Proof.
  intros Hex. unfold_decisions. settle_guards.
  destruct b; cbn [negb]; [|repeat split; eauto].
  destruct (isRedirectPage (pwb_ItemPage w qid)); [repeat split; eauto|].
  rewrite !removal_checks.
  repeat split; eauto;
    repeat match goal with
           | |- context [if ?c then _ else _] => destruct c
           end; eauto.
Qed.

Lemma alias_predicates_return (w : World) (qid key : string)
    (value : option AliasDiff) (b : bool) :
  exists_ (pwb_ItemPage w qid) = Return b ->
  (exists v, should_patrol_alias_additions w qid key value = Return v) /\
  (exists v, should_patrol_alias_removals w qid key value = Return v) /\
  (exists v, should_patrol_alias_modifications w qid key value = Return v).
Proof.
  intros Hex. destruct value as [diff|]; [|repeat split; eauto].
  destruct b.
  - destruct (isRedirectPage (pwb_ItemPage w qid)) eqn:Hred.
    + destruct (redirect_alias_predicates w qid key diff Hex Hred)
        as (-> & -> & ->). repeat split; eauto.
    + repeat split.
      * destruct (remove diff) as [|x l] eqn:Hrem.
        -- rewrite (alias_additions_loaded w qid key diff Hrem Hex Hred). eauto.
        -- unfold should_patrol_alias_additions. rewrite Hrem. eauto.
      * destruct (add diff) as [|x l] eqn:Hadd.
        -- rewrite (alias_removals_loaded w qid key diff Hadd Hex Hred). eauto.
        -- unfold should_patrol_alias_removals. rewrite Hadd. eauto.
      * rewrite (alias_modifications_loaded w qid key diff Hex Hred). eauto.
  - destruct (vanished_alias_predicates w qid key (Some diff) Hex)
      as (-> & -> & ->). repeat split; eauto.
Qed.

(** X9. The checks of the label, description and alias actions read nothing
    but the item: once [exists()] has answered they return a verdict and
    never raise.  In particular the membership tests on [aliases.get(key)]
    are never reached with [None]. *)
Theorem check_returns_once_exists_returns :
  forall (a : action) (w : World) (qid key : string) (value : intent_value a)
         (b : bool),
    a <> wbsetsitelink_remove ->
    a <> wbsetsitelink_add ->
    exists_ (pwb_ItemPage w qid) = Return b ->
    exists verdict, check_function a w qid key value = Return verdict.
Proof.
  intros a w qid key value b Hrem Hadd Hex.
  destruct a; cbn in value |- *; try congruence;
    try apply (text_predicates_return w qid key value b Hex);
    try apply (alias_predicates_return w qid key value b Hex).
  eauto.
Qed.

Lemma check_returns_once_exists_returns_witness :
  exists verdict,
    check_function wbsetaliases_set (Samples.aliased "de" ["X"]) "Q7" "en"
      (Some (Samples.diff_of ["Y"] [])) = Return verdict.
Proof.
  apply (check_returns_once_exists_returns wbsetaliases_set
           (Samples.aliased "de" ["X"]) "Q7" "en"
           (Some (Samples.diff_of ["Y"] [])) true);
    [discriminate | discriminate | reflexivity].
Defined.

(** ** Site links *)







(** ** Processing the revisions of an action *)

Lemma patrolled_app (l1 l2 : list event) :
  patrolled (l1 ++ l2) = patrolled l1 ++ patrolled l2.
Proof. unfold patrolled. apply List.flat_map_app. Qed.

(** A row is patrolled exactly when it is approved; a row that is not
    patrolled leaves at most a progress line. *)
Lemma process_row_cases (env : Env) (a : action) (i total : nat) (elem : Row)
    (events : list event) :
  process_row env a i total elem = Return events ->
  (approved env a elem /\ patrolled events = [rc_this_oldid elem]) \/
  (~ approved env a elem /\ patrolled events = []).
Proof.
  unfold process_row. intros H.
  destruct (decode_utf8 env (comment_text elem)) as [comment|e] eqn:Hc;
    cbn [bind] in H; [|discriminate].
  destruct (re_match a comment) as [[[digits key] value]|] eqn:Hm.
  2:{ injection H as <-. right. split; [|reflexivity].
      intros (c & d & k & v & q & v' & Hc' & Hm' & _). congruence. }
  destruct (decode_utf8 env (rc_title elem)) as [qid|e] eqn:Hq;
    cbn [bind] in H; [|discriminate].
  destruct (value_of_row env a (rc_this_oldid elem) value) as [v|e] eqn:Hv;
    cbn [bind] in H; [|discriminate].
  destruct (check_function a (wiki env) qid key v) as [[|]|e] eqn:Hcheck;
    cbn [bind] in H; [| |discriminate].
  - destruct (SITE_patrol env (rc_this_oldid elem)) as [[]|e] eqn:Hp;
      cbn [bind] in H; [|discriminate].
    injection H as <-. left. split; [|reflexivity].
    exists comment, digits, key, value, qid, v. repeat split; assumption.
  - right. split.
    + intros (c & d & k & v0 & q & v' & Hc' & Hm' & Hq' & Hv' & Hcheck' & _).
      rewrite Hc in Hc'. injection Hc' as <-.
      rewrite Hm in Hm'. injection Hm' as <- <- <-.
      rewrite Hq in Hq'. injection Hq' as <-.
      rewrite Hv in Hv'. injection Hv' as <-.
      rewrite Hcheck in Hcheck'. discriminate.
    + destruct (Nat.eqb (i mod 100) 0); injection H as <-; reflexivity.
Qed.

Lemma process_row_approved (env : Env) (a : action) (i total : nat)
    (elem : Row) :
  approved env a elem ->
  exists qid key,
    process_row env a i total elem
    = Return [Patrolled i total qid key (rc_this_oldid elem)].
Proof.
  intros (c & d & k & v & q & v' & Hc & Hm & Hq & Hv & Hcheck & Hp).
  exists q, k. unfold process_row.
  rewrite Hc. cbn [bind]. rewrite Hm, Hq. cbn [bind]. rewrite Hv. cbn [bind].
  rewrite Hcheck. cbn [bind]. rewrite Hp. reflexivity.
Qed.

(** X12. Whatever ends the loop, the revisions patrolled by it are those of
    approved rows met so far, in the order of the query result, each once per
    row: the list of patrolled ids is the list of ids of a sublist of the
    rows, all of them approved.  When no exception ends the loop, every
    approved row is in that sublist. *)
Theorem patrolled_are_approved :
  forall (env : Env) (a : action) (rows : list Row) (i total : nat),
    exists rows' : list Row,
      sublist rows' rows /\
      List.Forall (approved env a) rows' /\
      patrolled (fst (process_rows env a i total rows))
      = List.map rc_this_oldid rows' /\
      (snd (process_rows env a i total rows) = None ->
       forall elem, In elem rows -> approved env a elem -> In elem rows').
Proof.
  intros env a rows. induction rows as [|elem rest IH]; intros i total.
  - exists []. repeat split; try constructor. intros _ elem [].
  - cbn [process_rows].
    destruct (process_row env a i total elem) as [events|e] eqn:Hrow.
    + destruct (IH (S i) total) as (rows' & Hsub & Hall & Hids & Hcomplete).
      cbn [fst snd]. rewrite patrolled_app, Hids.
      destruct (process_row_cases env a i total elem events Hrow)
        as [[Happ ->]|[Hnot ->]].
      * exists (elem :: rows'). repeat split.
        -- apply sublist_skip. exact Hsub.
        -- constructor; assumption.
        -- intros Hend x [<-|Hin] Hx; [left; reflexivity|].
           right. apply Hcomplete; assumption.
      * exists rows'. repeat split.
        -- apply sublist_cons. exact Hsub.
        -- exact Hall.
        -- intros Hend x [<-|Hin] Hx; [contradiction|].
           apply Hcomplete; assumption.
    + exists []. cbn [fst snd]. repeat split.
      * apply sublist_nil_l.
      * constructor.
      * discriminate.
Qed.

Lemma get_revision_diff_lacking (env : Env) (revision_id : nat)
    (payload : Payload) :
  requests_get_compare env revision_id = Return payload ->
  lacks_diff payload ->
  get_revision_diff env revision_id = Raise RuntimeError.
Proof.
  intros Hget Hlack. unfold get_revision_diff, lacks_diff in *.
  rewrite Hget. cbn [bind].
  destruct (payload !! "compare") as [[compare|]|]; try reflexivity.
  destruct (compare !! "*") as [[diff|]|]; try reflexivity. contradiction.
Qed.

(** With the diff missing, an alias row that decodes leaves at most a
    progress line. *)
Lemma process_row_without_diff (env : Env) (a : action) (i total : nat)
    (elem : Row) (comment qid : string) :
  is_alias_action a = true ->
  get_revision_diff env (rc_this_oldid elem) = Raise RuntimeError ->
  decode_utf8 env (comment_text elem) = Return comment ->
  decode_utf8 env (rc_title elem) = Return qid ->
  exists events,
    process_row env a i total elem = Return events /\ patrolled events = [].
Proof.
  intros Ha Hdiff Hc Hq. unfold process_row. rewrite Hc. cbn [bind].
  destruct (re_match a comment) as [[[digits key] value]|]; [|eauto].
  rewrite Hq. cbn [bind].
  destruct a; try discriminate Ha;
    cbn [value_of_row is_alias_action action_name PyStr.startswith String.prefix];
    cbn; rewrite Hdiff; cbn;
    match goal with
    | |- context [if ?c then _ else _] => destruct c
    end; eexists; split; reflexivity.
Qed.

(** X13. When the [compare] answer for the revision of an alias row lacks the
    [compare] object or its [*] field, the row is not patrolled and the loop
    goes on with the next row: what is patrolled afterwards, and what ends
    the loop, are as without the row. *)
Theorem missing_diff_not_patrolled :
  forall (env : Env) (a : action) (i total : nat) (elem : Row)
         (rest : list Row) (payload : Payload) (comment qid : string),
    is_alias_action a = true ->
    requests_get_compare env (rc_this_oldid elem) = Return payload ->
    lacks_diff payload ->
    decode_utf8 env (comment_text elem) = Return comment ->
    decode_utf8 env (rc_title elem) = Return qid ->
    patrolled (fst (process_rows env a i total (elem :: rest)))
    = patrolled (fst (process_rows env a (S i) total rest)) /\
    snd (process_rows env a i total (elem :: rest))
    = snd (process_rows env a (S i) total rest).
Proof.
  intros env a i total elem rest payload comment qid Ha Hget Hlack Hc Hq.
  pose proof (get_revision_diff_lacking env _ payload Hget Hlack) as Hdiff.
  destruct (process_row_without_diff env a i total elem comment qid
              Ha Hdiff Hc Hq) as (events & Hrow & Hnone).
  cbn [process_rows]. rewrite Hrow. cbn [fst snd].
  rewrite patrolled_app, Hnone. split; reflexivity.
Qed.

Lemma missing_diff_not_patrolled_witness :
  patrolled
    (fst (process_rows
            (Samples.env_of Samples.redirected [] (fun _ => Return ∅))
            wbsetaliases_add 1 2
            [Samples.row 11 "Q7" "/* wbsetaliases-add:1|en */ X";
             Samples.row 12 "Q7" "/* wbsetaliases-add:1|en */ Y"]))
  = patrolled
      (fst (process_rows
              (Samples.env_of Samples.redirected [] (fun _ => Return ∅))
              wbsetaliases_add 2 2
              [Samples.row 12 "Q7" "/* wbsetaliases-add:1|en */ Y"])).
Proof.
  apply (missing_diff_not_patrolled
           (Samples.env_of Samples.redirected [] (fun _ => Return ∅))
           wbsetaliases_add 1 2
           (Samples.row 11 "Q7" "/* wbsetaliases-add:1|en */ X")
           [Samples.row 12 "Q7" "/* wbsetaliases-add:1|en */ Y"]
           ∅ "/* wbsetaliases-add:1|en */ X" "Q7");
    first [exact I | reflexivity].
Defined.

(** X14. An exception of the scraper is not caught: when the diff of an alias
    row is fetched and [scrape_aliases_from_diff] raises on it, the loop ends
    there with that exception and the rows after it are not processed.  This
    is so for a diff that is the empty string, which raises
    [RuntimeError]. *)
Theorem scrape_failure_ends_the_loop :
  forall (env : Env) (a : action) (i total : nat) (elem : Row)
         (rest : list Row) (comment digits key value qid diff : string)
         (e : exn),
    is_alias_action a = true ->
    decode_utf8 env (comment_text elem) = Return comment ->
    re_match a comment = Some (digits, key, value) ->
    decode_utf8 env (rc_title elem) = Return qid ->
    get_revision_diff env (rc_this_oldid elem) = Return diff ->
    (scrape_aliases_from_diff (fromstring env) diff = Raise e ->
     process_rows env a i total (elem :: rest) = ([], Some e)) /\
    (diff = EmptyString ->
     process_rows env a i total (elem :: rest) = ([], Some RuntimeError)).
Proof.
  intros env a i total elem rest comment digits key value qid diff e
         Ha Hc Hm Hq Hdiff.
  assert (Hgen : forall e', scrape_aliases_from_diff (fromstring env) diff
                            = Raise e' ->
                 process_rows env a i total (elem :: rest) = ([], Some e')).
  { intros e' Hscrape. cbn [process_rows]. unfold process_row.
    rewrite Hc. cbn [bind]. rewrite Hm, Hq. cbn [bind].
    destruct a; try discriminate Ha; cbn; rewrite Hdiff; cbn;
      rewrite Hscrape; reflexivity. }
  split; [apply Hgen|].
  intros ->. apply Hgen. reflexivity.
Qed.

Lemma scrape_failure_ends_the_loop_witness :
  process_rows
    (Samples.env_of Samples.redirected []
       (fun _ => Return (Samples.compare_of "")))
    wbsetaliases_add 1 2
    [Samples.row 11 "Q7" "/* wbsetaliases-add:1|en */ X";
     Samples.row 12 "Q7" "/* wbsetaliases-add:1|en */ Y"]
  = ([], Some RuntimeError).
Proof.
  apply (scrape_failure_ends_the_loop
           (Samples.env_of Samples.redirected []
              (fun _ => Return (Samples.compare_of "")))
           wbsetaliases_add 1 2
           (Samples.row 11 "Q7" "/* wbsetaliases-add:1|en */ X")
           [Samples.row 12 "Q7" "/* wbsetaliases-add:1|en */ Y"]
           "/* wbsetaliases-add:1|en */ X" "1" "en" "X" "Q7" "" RuntimeError);
    reflexivity.
Defined.

(** The row counter and the total only show in what is printed. *)
Lemma process_row_counter (env : Env) (a : action) (i total j total' : nat)
    (elem : Row) :
  match process_row env a i total elem, process_row env a j total' elem with
  | Return events, Return events' => patrolled events = patrolled events'
  | Raise e, Raise e' => e = e'
  | _, _ => False
  end.
Proof.
  unfold process_row.
  destruct (decode_utf8 env (comment_text elem)) as [comment|e]; cbn [bind];
    [|reflexivity].
  destruct (re_match a comment) as [[[digits key] value]|]; [|reflexivity].
  destruct (decode_utf8 env (rc_title elem)) as [qid|e]; cbn [bind];
    [|reflexivity].
  destruct (value_of_row env a (rc_this_oldid elem) value) as [v|e];
    cbn [bind]; [|reflexivity].
  destruct (check_function a (wiki env) qid key v) as [[|]|e]; cbn [bind];
    [| |reflexivity].
  - destruct (SITE_patrol env (rc_this_oldid elem)) as [[]|e]; reflexivity.
  - destruct (Nat.eqb (i mod 100) 0), (Nat.eqb (j mod 100) 0); reflexivity.
Qed.

Lemma process_rows_counter (env : Env) (a : action) (rows : list Row)
    (i total j total' : nat) :
  patrolled (fst (process_rows env a i total rows))
  = patrolled (fst (process_rows env a j total' rows)) /\
  snd (process_rows env a i total rows)
  = snd (process_rows env a j total' rows).
Proof.
  revert i j. induction rows as [|elem rest IH]; intros i j;
    [split; reflexivity|].
  cbn [process_rows].
  pose proof (process_row_counter env a i total j total' elem) as Hrow.
  destruct (process_row env a i total elem) as [events|e],
           (process_row env a j total' elem) as [events'|e'];
    try contradiction; cbn [fst snd].
  - destruct (IH (S i) (S j)) as [IHp IHe].
    rewrite !patrolled_app, Hrow, IHp, IHe. split; reflexivity.
  - subst e'. split; reflexivity.
Qed.

(** X15. A row whose summary does not match the pattern of the action is
    skipped, and the row counter plays no part in the decisions: with such a
    row taken out of the query result, at any place, the same revisions are
    patrolled in the same order and the same exception, if any, ends the
    loop. *)
Theorem unmatched_row_skipped :
  forall (env : Env) (a : action) (before after : list Row) (elem : Row)
         (i total total' : nat),
    unmatched env a elem ->
    patrolled (fst (process_rows env a i total (before ++ elem :: after)))
    = patrolled (fst (process_rows env a i total' (before ++ after))) /\
    snd (process_rows env a i total (before ++ elem :: after))
    = snd (process_rows env a i total' (before ++ after)).
Proof.
  intros env a before after elem i total total' (comment & Hc & Hm).
  revert i. induction before as [|first before IH]; intros i.
  - cbn [app process_rows]. unfold process_row at 1 2.
    rewrite Hc. cbn [bind]. rewrite Hm. cbn [app fst snd].
    apply process_rows_counter.
  - cbn [app process_rows].
    pose proof (process_row_counter env a i total i total' first) as Hrow.
    destruct (process_row env a i total first) as [events|e],
             (process_row env a i total' first) as [events'|e'];
      try contradiction; cbn [fst snd].
    + destruct (IH (S i)) as [IHp IHe].
      rewrite !patrolled_app, Hrow, IHp, IHe. split; reflexivity.
    + subst e'. split; reflexivity.
Qed.

Lemma unmatched_row_skipped_witness :
  patrolled
    (fst (process_rows (Samples.env_of Samples.redirected [] (fun _ => Return ∅))
            wbsetlabel_add 1 2
            ([] ++ Samples.row 11 "Q7" "an edit by hand"
                :: [Samples.row 12 "Q7" "/* wbsetlabel-add:1|en */ X"])))
  = patrolled
      (fst (process_rows (Samples.env_of Samples.redirected [] (fun _ => Return ∅))
              wbsetlabel_add 1 1
              ([] ++ [Samples.row 12 "Q7" "/* wbsetlabel-add:1|en */ X"]))).
Proof.
  apply (unmatched_row_skipped
           (Samples.env_of Samples.redirected [] (fun _ => Return ∅))
           wbsetlabel_add []
           [Samples.row 12 "Q7" "/* wbsetlabel-add:1|en */ X"]
           (Samples.row 11 "Q7" "an edit by hand") 1 2 1).
  exists "an edit by hand". split; reflexivity.
Defined.

(** X16. The site-link deletion action patrols every row that matches its
    pattern: when the summaries and titles of all rows decode, all summaries
    match and every patrol call returns, the run patrols the revisions of all
    rows, in their order, and ends without exception. *)
Theorem sitelink_deletions_all_patrolled :
  forall (env : Env) (rows : list Row) (i total : nat),
    List.Forall
      (fun elem =>
         exists comment digits key value qid,
           decode_utf8 env (comment_text elem) = Return comment /\
           re_match clientsitelink_remove comment = Some (digits, key, value) /\
           decode_utf8 env (rc_title elem) = Return qid /\
           SITE_patrol env (rc_this_oldid elem) = Return tt)
      rows ->
    patrolled (fst (process_rows env clientsitelink_remove i total rows))
    = List.map rc_this_oldid rows /\
    snd (process_rows env clientsitelink_remove i total rows) = None.
Proof.
  intros env rows. induction rows as [|elem rest IH]; intros i total Hall;
    [split; reflexivity|].
  inversion Hall as [|? ? (comment & digits & key & value & qid
                           & Hc & Hm & Hq & Hp) Hrest]; subst.
  destruct (process_row_approved env clientsitelink_remove i total elem)
    as (q & k & Hrow).
  { exists comment, digits, key, value, qid, value. repeat split; assumption. }
  destruct (IH (S i) total Hrest) as [IHp IHe].
  cbn [process_rows]. rewrite Hrow. cbn [fst snd].
  rewrite patrolled_app, IHp, IHe. split; reflexivity.
Qed.

Lemma sitelink_deletions_all_patrolled_witness :
  patrolled
    (fst (process_rows (Samples.env_of Samples.vanished [] (fun _ => Return ∅))
            clientsitelink_remove 1 1
            [Samples.row 11 "Q7" "/* clientsitelink-remove:1||enwiki */ Page A"]))
  = [11].
Proof.
  apply (sitelink_deletions_all_patrolled
           (Samples.env_of Samples.vanished [] (fun _ => Return ∅))
           [Samples.row 11 "Q7" "/* clientsitelink-remove:1||enwiki */ Page A"]
           1 1).
  repeat constructor.
  exists "/* clientsitelink-remove:1||enwiki */ Page A", "1", "enwiki",
    "Page A", "Q7".
  repeat split.
Defined.

(** ** What the scraper collects *)

Lemma cls_is_true_iff (td_cls : option string) (name : string) :
  cls_is td_cls name = true <-> td_cls = Some name.
Proof.
  unfold cls_is. destruct td_cls as [c|].
  - rewrite String.eqb_eq. split; congruence.
  - split; discriminate.
Qed.

(** A cell adds at most its own text to each list. *)
Lemma scrape_cell_entries (i : nat) (st st' : ScrapeState) (td_tag : Element) :
  scrape_cell i st td_tag = Return st' ->
  (forall x, In x (remove (scraped st')) ->
             In x (remove (scraped st))
             \/ cell_gives "diff-deletedline" "del" td_tag x) /\
  (forall x, In x (add (scraped st')) ->
             In x (add (scraped st))
             \/ cell_gives "diff-addedline" "ins" td_tag x).
Proof.
  unfold scrape_cell, cell_gives. intros H.
  destruct (Nat.eqb (i mod 2) 1).
  { destruct (negb _); injection H as <-; split; intros x Hx; left; exact Hx. }
  destruct (negb (process_table_cells st)).
  { injection H as <-. split; intros x Hx; left; exact Hx. }
  destruct (cls_is (attrib td_tag !! "class") "diff-deletedline") eqn:Hdel;
    destruct (cls_is (attrib td_tag !! "class") "diff-addedline") eqn:Hadd;
    try apply cls_is_true_iff in Hdel; try apply cls_is_true_iff in Hadd.
  - congruence.
  - destruct (inner_text "del" td_tag) as [t|e] eqn:Ht; cbn [bind] in H;
      [|discriminate].
    injection H as <-. cbn [append_remove scraped add remove]. split.
    + intros x Hx. apply in_app_iff in Hx. destruct Hx as [Hx|[<-|[]]];
        [left; exact Hx | right; split; [exact Hdel | reflexivity]].
    + intros x Hx. left. exact Hx.
  - cbn [bind] in H.
    destruct (inner_text "ins" td_tag) as [t|e] eqn:Ht; cbn [bind] in H;
      [|discriminate].
    injection H as <-. cbn [append_add scraped add remove]. split.
    + intros x Hx. left. exact Hx.
    + intros x Hx. apply in_app_iff in Hx. destruct Hx as [Hx|[<-|[]]];
        [left; exact Hx | right; split; [exact Hadd | reflexivity]].
  - injection H as <-. split; intros x Hx; left; exact Hx.
Qed.

Lemma scrape_cells_entries (i : nat) (td_tags : list Element)
    (st st' : ScrapeState) :
  scrape_cells i st td_tags = Return st' ->
  (forall x, In x (remove (scraped st')) ->
             In x (remove (scraped st))
             \/ exists td_tag, In td_tag td_tags
                               /\ cell_gives "diff-deletedline" "del" td_tag x) /\
  (forall x, In x (add (scraped st')) ->
             In x (add (scraped st))
             \/ exists td_tag, In td_tag td_tags
                               /\ cell_gives "diff-addedline" "ins" td_tag x).
Proof.
  revert st. induction td_tags as [|td_tag rest IH]; intros st H.
  - injection H as <-. split; intros x Hx; left; exact Hx.
  - cbn [scrape_cells] in H.
    destruct (scrape_cell i st td_tag) as [st1|e] eqn:Hcell; cbn [bind] in H;
      [|discriminate].
    destruct (scrape_cell_entries i st st1 td_tag Hcell) as [Hr1 Ha1].
    destruct (IH st1 H) as [Hr Ha]. split; intros x Hx.
    + destruct (Hr x Hx) as [Hin|(td & Hin & Hg)].
      * destruct (Hr1 x Hin) as [Hold|Hg]; [left; exact Hold|].
        right. exists td_tag. split; [left; reflexivity | exact Hg].
      * right. exists td. split; [right; exact Hin | exact Hg].
    + destruct (Ha x Hx) as [Hin|(td & Hin & Hg)].
      * destruct (Ha1 x Hin) as [Hold|Hg]; [left; exact Hold|].
        right. exists td_tag. split; [left; reflexivity | exact Hg].
      * right. exists td. split; [right; exact Hin | exact Hg].
Qed.

Lemma scrape_rows_entries (tr_tags : list Element) (i : nat)
    (st st' : ScrapeState) :
  scrape_rows i st tr_tags = Return st' ->
  (forall x, In x (remove (scraped st')) ->
             In x (remove (scraped st))
             \/ rows_give "diff-deletedline" "del" tr_tags x) /\
  (forall x, In x (add (scraped st')) ->
             In x (add (scraped st))
             \/ rows_give "diff-addedline" "ins" tr_tags x).
Proof.
  revert i st. induction tr_tags as [|tr_tag rest IH]; intros i st H.
  - injection H as <-. split; intros x Hx; left; exact Hx.
  - cbn [scrape_rows] in H.
    destruct (scrape_cells i st (findall "td" tr_tag)) as [st1|e] eqn:Hcells;
      cbn [bind] in H; [|discriminate].
    destruct (scrape_cells_entries i _ st st1 Hcells) as [Hr1 Ha1].
    destruct (IH (S i) st1 H) as [Hr Ha]. unfold rows_give in *.
    split; intros x Hx.
    + destruct (Hr x Hx) as [Hin|(tr & td & Htr & Htd & Hg)].
      * destruct (Hr1 x Hin) as [Hold|(td & Htd & Hg)]; [left; exact Hold|].
        right. exists tr_tag, td. repeat split; try assumption; try apply Hg.
        left. reflexivity.
      * right. exists tr, td. repeat split; try assumption; try apply Hg.
        right. exact Htr.
    + destruct (Ha x Hx) as [Hin|(tr & td & Htr & Htd & Hg)].
      * destruct (Ha1 x Hin) as [Hold|(td & Htd & Hg)]; [left; exact Hold|].
        right. exists tr_tag, td. repeat split; try assumption; try apply Hg.
        left. reflexivity.
      * right. exists tr, td. repeat split; try assumption; try apply Hg.
        right. exact Htr.
Qed.

(** X17. The scraper invents nothing: when it returns a diff, the parser had
    returned a tree, every removed entry is the text of the [del] element in
    the [div] of a cell with class [diff-deletedline] in some table row of
    the tree, and every added entry the text of the [ins] element in the
    [div] of a cell with class [diff-addedline]. *)
Theorem scraped_entries_come_from_cells :
  forall (fromstring : string -> result (option Element)) (diff : string)
         (d : AliasDiff),
    scrape_aliases_from_diff fromstring diff = Return d ->
    exists tree,
      fromstring diff = Return (Some tree) /\
      List.Forall (rows_give "diff-deletedline" "del" (xpath_tr tree)) (remove d) /\
      List.Forall (rows_give "diff-addedline" "ins" (xpath_tr tree)) (add d).
Proof.
  intros fromstring diff d H. unfold scrape_aliases_from_diff in H.
  destruct (Nat.eqb (String.length diff) 0); [discriminate|].
  destruct (fromstring diff) as [[tree|]|e]; cbn [bind] in H; try discriminate.
  destruct (scrape_rows 1 scrape_init (xpath_tr tree)) as [st|e] eqn:Hrows;
    cbn [bind] in H; [|discriminate].
  injection H as <-. exists tree. split; [reflexivity|].
  destruct (scrape_rows_entries _ 1 scrape_init st Hrows) as [Hr Ha].
  split; apply List.Forall_forall; intros x Hx.
  - destruct (Hr x Hx) as [[]|Hg]. exact Hg.
  - destruct (Ha x Hx) as [[]|Hg]. exact Hg.
Qed.

Lemma scraped_entries_come_from_cells_witness :
  exists tree,
    Samples.parser Samples.alias_diff_html = Return (Some tree) /\
    List.Forall (rows_give "diff-deletedline" "del" (xpath_tr tree))
      (remove (Samples.diff_of ["Y"] ["X"])) /\
    List.Forall (rows_give "diff-addedline" "ins" (xpath_tr tree))
      (add (Samples.diff_of ["Y"] ["X"])).
Proof.
  apply (scraped_entries_come_from_cells Samples.parser Samples.alias_diff_html
           (Samples.diff_of ["Y"] ["X"])).
  reflexivity.
Defined.

(** A cell that announces no aliases leaves the switch off and the lists as
    they are. *)
Lemma scrape_cell_switched_off (i : nat) (st : ScrapeState) (td_tag : Element) :
  process_table_cells st = false ->
  (Nat.odd i = true -> alias_header td_tag = false) ->
  exists st',
    scrape_cell i st td_tag = Return st' /\
    process_table_cells st' = false /\ scraped st' = scraped st.
Proof.
  intros Hoff Hhead. unfold scrape_cell.
  destruct (Nat.eqb (i mod 2) 1) eqn:Hpar.
  - assert (Hodd : Nat.odd i = true).
    { apply Nat.eqb_eq in Hpar. rewrite <- Nat.bit0_mod in Hpar.
      rewrite Nat.bit0_odd in Hpar. destruct (Nat.odd i); [reflexivity|discriminate]. }
    specialize (Hhead Hodd). unfold alias_header in Hhead.
    destruct (cls_is (attrib td_tag !! "class") "diff-lineno"); cbn [negb].
    + cbn [andb] in Hhead. rewrite Hhead. eexists. repeat split.
    + eexists. repeat split.
  - rewrite Hoff. cbn [negb]. eexists. repeat split. exact Hoff.
Qed.

Lemma scrape_cells_switched_off (i : nat) (td_tags : list Element)
    (st : ScrapeState) :
  process_table_cells st = false ->
  (Nat.odd i = true -> existsb alias_header td_tags = false) ->
  exists st',
    scrape_cells i st td_tags = Return st' /\
    process_table_cells st' = false /\ scraped st' = scraped st.
Proof.
  revert st. induction td_tags as [|td_tag rest IH]; intros st Hoff Hhead.
  - exists st. repeat split. exact Hoff.
  - cbn [existsb] in Hhead.
    destruct (scrape_cell_switched_off i st td_tag Hoff) as (st1 & H1 & Hoff1 & Hs1).
    { intros Hodd. specialize (Hhead Hodd). apply orb_false_iff in Hhead. tauto. }
    destruct (IH st1 Hoff1) as (st' & H' & Hoff' & Hs').
    { intros Hodd. specialize (Hhead Hodd). apply orb_false_iff in Hhead. tauto. }
    exists st'. cbn [scrape_cells]. rewrite H1. cbn [bind].
    repeat split; [exact H' | exact Hoff' | congruence].
Qed.

Lemma scrape_rows_switched_off (tr_tags : list Element) (i : nat)
    (st : ScrapeState) :
  process_table_cells st = false ->
  (forall k tr_tag, tr_tags !! k = Some tr_tag -> Nat.odd (i + k) = true ->
                    announces_aliases tr_tag = false) ->
  exists st',
    scrape_rows i st tr_tags = Return st' /\
    process_table_cells st' = false /\ scraped st' = scraped st.
Proof.
  revert i st. induction tr_tags as [|tr_tag rest IH]; intros i st Hoff Hhead.
  - exists st. repeat split. exact Hoff.
  - destruct (scrape_cells_switched_off i (findall "td" tr_tag) st Hoff)
      as (st1 & H1 & Hoff1 & Hs1).
    { intros Hodd. apply (Hhead 0 tr_tag); [reflexivity|].
      rewrite Nat.add_0_r. exact Hodd. }
    destruct (IH (S i) st1 Hoff1) as (st' & H' & Hoff' & Hs').
    { intros k tr Hk Hodd. apply (Hhead (S k) tr); [exact Hk|].
      rewrite Nat.add_succ_r. exact Hodd. }
    exists st'. cbn [scrape_rows]. rewrite H1. cbn [bind].
    repeat split; [exact H' | exact Hoff' | congruence].
Qed.

(** X18. A diff that touches no alias gives the empty dict and no exception:
    when the string is not empty, the parser returns a tree, and no
    odd-numbered table row of the tree (the first, the third, ...) holds a
    [diff-lineno] cell whose text starts with [aliases / ], the scraper
    returns the dict with both lists empty, whatever the other rows hold. *)
Theorem diff_without_alias_rows :
  forall (fromstring : string -> result (option Element)) (diff : string)
         (tree : Element),
    diff <> EmptyString ->
    fromstring diff = Return (Some tree) ->
    (forall k tr_tag, xpath_tr tree !! (2 * k) = Some tr_tag ->
                      announces_aliases tr_tag = false) ->
    scrape_aliases_from_diff fromstring diff
    = Return {| add := []; remove := [] |}.
Proof.
  intros fromstring diff tree Hne Hparse Hrows.
  unfold scrape_aliases_from_diff.
  destruct (Nat.eqb (String.length diff) 0) eqn:Hlen;
    [apply length_0_iff in Hlen; contradiction|].
  rewrite Hparse. cbn [bind].
  destruct (scrape_rows_switched_off (xpath_tr tree) 1 scrape_init eq_refl)
    as (st & Hrun & _ & Hsame).
  { intros k tr_tag Hk Hodd. cbn [Nat.add] in Hodd.
    rewrite Nat.odd_succ in Hodd. apply Nat.even_spec in Hodd.
    destruct Hodd as [m ->]. apply (Hrows m tr_tag Hk). }
  rewrite Hrun. cbn [bind]. rewrite Hsame. reflexivity.
Qed.

Lemma diff_without_alias_rows_witness :
  scrape_aliases_from_diff Samples.label_parser "<tr></tr>"
  = Return {| add := []; remove := [] |}.
Proof.
  apply (diff_without_alias_rows Samples.label_parser "<tr></tr>"
           Samples.label_diff_tree); [discriminate | reflexivity |].
  intros k tr_tag Hk. destruct k as [|k].
  - injection Hk as <-. reflexivity.
  - replace (2 * S k) with (S (S (2 * k))) in Hk by lia.
    discriminate Hk.
Defined.

(** ** One job per summary *)

Lemma action_prefix_unique (a b : action) (s r1 r2 : string) :
  strip_prefix ("/* " +:+ action_name a +:+ ":") s = Some r1 ->
  strip_prefix ("/* " +:+ action_name b +:+ ":") s = Some r2 ->
  a = b.
Proof.
  intros Ha Hb. apply strip_prefix_Some in Ha. subst s.
  destruct a, b; try reflexivity; vm_compute in Hb; discriminate Hb.
Qed.

(** X19. The patterns of two different actions match no common summary: a
    summary that the pattern of one action matches is not matched by the
    pattern of any other, so a revision is processed by the job of at most
    one action. *)
Theorem patterns_disjoint :
  forall (a b : action) (summary : string) (groups : string * string * string),
    a <> b ->
    re_match a summary = Some groups ->
    re_match b summary = None.
Proof.
  intros a b summary groups Hab Ha.
  destruct (re_match b summary) as [groups'|] eqn:Hb; [|reflexivity].
  exfalso. apply Hab. unfold re_match in Ha, Hb.
  destruct (strip_prefix ("/* " +:+ action_name a +:+ ":") summary)
    as [ra|] eqn:Hpa; [|discriminate].
  destruct (strip_prefix ("/* " +:+ action_name b +:+ ":") summary)
    as [rb|] eqn:Hpb; [|discriminate].
  exact (action_prefix_unique a b summary ra rb Hpa Hpb).
Qed.

Lemma patterns_disjoint_witness :
  re_match wbsetlabel_add "/* wbsetlabel-set:1|en */ Douglas Adams" = None.
Proof.
  apply (patterns_disjoint wbsetlabel_set wbsetlabel_add
           "/* wbsetlabel-set:1|en */ Douglas Adams"
           ("1", "en", "Douglas Adams")); [discriminate | reflexivity].
Defined.
